(** * ethiopia-fi-forecast: the dataset analysis and report pipeline

    A shallow embedding of [src/data_processor.py] (class [DataProcessor] and
    [main]) and of [calculate_growth_metrics] from
    [dashboards/dashboard_utils.py], with the properties the specification
    states about them.

    Conventions of the embedding:
    - a Python exception is a value of [exn]; code that may raise returns
      [result A];
    - a pandas [DataFrame] is its list of column names and its list of rows,
      a cell being [None] for NaN/None/NaT and [Some v] otherwise;
    - a Python [dict] is an association list in insertion order;
    - the file system, the clock and the standard output are passed
      explicitly. *)

From Stdlib Require Import ZArith Ascii String Floats.
From stdpp Require Import base option list list_numbers gmap strings pretty sorting.

(** ** Python exceptions and fallible computations *)

(** A path is the sequence of its components, as [pathlib.Path.parts]. *)
Abbreviation path := (list string).

Inductive exn : Type :=
  | KeyError (key : string)
  | ValueError (msg : string)
  | TypeError (msg : string)
  | IndexError
  | ZeroDivisionError
  | OverflowError
  | FileNotFoundError (p : path)
  | FileExistsError (p : path)
  | PermissionError (p : path)
  | IsADirectoryError (p : path)
  | NotADirectoryError (p : path)
  | ParserError (p : path)
  | AttributeError (name : string).

Inductive result (A : Type) : Type :=
  | Ok (a : A)
  | Raise (e : exn).
Arguments Ok {A} a.
Arguments Raise {A} e.

(** Sequencing: the first exception raised ends the computation. *)
#[global] Instance result_ret : MRet result := λ A a, Ok a.
#[global] Instance result_bind : MBind result := λ A B k m,
  match m with
  | Ok a => k a
  | Raise e => Raise e
  end.

#[global] Instance exn_eq_dec : EqDecision exn.
Proof. solve_decision. Defined.

(** ** Cells, series and data frames *)

(** The scalars a cell of the unified table holds.  The analysis only tests
    cells for missingness and for equality, so a numeric cell is kept as an
    integer.  The cells of a column that [read_csv] has read are of one
    kind (all strings, all numbers or all booleans), so that two cells of a
    column are equal in Python exactly when they are equal here. *)
Inductive scalar : Type :=
  | SStr (s : string)
  | SInt (n : Z)
  | SBool (b : bool).

#[global] Instance scalar_eq_dec : EqDecision scalar.
Proof. solve_decision. Defined.

#[global] Instance scalar_countable : Countable scalar.
Proof.
  refine (inj_countable'
    (λ v, match v with
          | SStr s => inl s
          | SInt n => inr (inl n)
          | SBool b => inr (inr b)
          end)
    (λ x, match x with
          | inl s => SStr s
          | inr (inl n) => SInt n
          | inr (inr b) => SBool b
          end) _).
  by intros [].
Defined.

(** [None] is a missing value (NaN, None, NaT). *)
Abbreviation cell := (option scalar).
Abbreviation Series := (list cell).

(** A Python dict, in insertion order. *)
Abbreviation dict K V := (list (K * V)).

Section Dict.
Context {K V : Type} `{EqDecision K}.

(** [d[k] = v]: the value is replaced in place when the key is present,
    and the pair is appended otherwise. *)
Fixpoint dict_set (k : K) (v : V) (d : dict K V) : dict K V :=
  match d with
  | [] => [(k, v)]
  | (k', v') :: d' =>
      if decide (k' = k) then (k, v) :: d' else (k', v') :: dict_set k v d'
  end.

(** [d.get(k)] *)
Fixpoint dict_get (k : K) (d : dict K V) : option V :=
  match d with
  | [] => None
  | (k', v') :: d' => if decide (k' = k) then Some v' else dict_get k d'
  end.

(** [dict(items)]: a later item overrides an earlier one with its key. *)
Definition to_dict (items : list (K * V)) : dict K V :=
  foldl (λ d kv, dict_set kv.1 kv.2 d) [] items.

Definition dict_values (d : dict K V) : list V := d.*2.
End Dict.

(** The rows of a table hold one cell per column; a row shorter than the
    header is missing its last cells, as [read_csv] fills them with NaN. *)
Record DataFrame : Type := mkDataFrame {
  columns : list string;
  rows : list (list cell)
}.

(** [len(df)] *)
Definition df_len (df : DataFrame) : nat := length (rows df).

(** [df.shape] *)
Definition df_shape (df : DataFrame) : nat * nat :=
  (length (rows df), length (columns df)).

(** Position of the first column with the given name. *)
Fixpoint column_index (name : string) (cols : list string) : option nat :=
  match cols with
  | [] => None
  | c :: cols' =>
      if decide (c = name) then Some 0 else S <$> column_index name cols'
  end.

Definition row_cell (i : nat) (r : list cell) : cell := mjoin (r !! i).

(** The cells of column number [i], one per row. *)
Definition column_at (i : nat) (df : DataFrame) : Series :=
  row_cell i <$> rows df.

(** [name in df.columns] *)
Definition has_column (name : string) (df : DataFrame) : bool :=
  bool_decide (name ∈ columns df).

(** [df[name]]; a [KeyError] when there is no such column. *)
Definition getitem (df : DataFrame) (name : string) : result Series :=
  match column_index name (columns df) with
  | Some i => Ok (column_at i df)
  | None => Raise (KeyError name)
  end.

(** [series == v], element by element; a missing value equals nothing. *)
Definition series_eq (s : Series) (v : scalar) : list bool :=
  (λ c, bool_decide (c = Some v)) <$> s.

(** [df[mask]]: the rows whose mask entry is true. *)
Definition boolean_index (df : DataFrame) (mask : list bool) : DataFrame :=
  {| columns := columns df;
     rows := (filter (λ rm, rm.2 = true) (zip (rows df) mask)).*1 |}.

(** [series.dropna()] *)
Definition dropna (s : Series) : list scalar := omap id s.

(** [series.unique()]: the distinct values in order of appearance, found
    with the hash table [seen]. *)
Fixpoint unique_from (seen : list scalar) (l : list scalar) : list scalar :=
  match l with
  | [] => []
  | x :: l' =>
      if decide (x ∈ seen) then unique_from seen l'
      else x :: unique_from (x :: seen) l'
  end.

Definition unique (l : list scalar) : list scalar := unique_from [] l.

(** Number of occurrences of [v]. *)
Definition occurrences (v : scalar) (l : list scalar) : nat :=
  length (filter (λ x, x = v) l).

(** [sort_values(ascending=False)] on the counts: the larger count first;
    an entry is put before the entries after it that have the same count. *)
Fixpoint insert_desc (x : scalar * nat) (l : list (scalar * nat))
    : list (scalar * nat) :=
  match l with
  | [] => [x]
  | y :: l' =>
      if decide (x.2 < y.2)%nat then y :: insert_desc x l' else x :: y :: l'
  end.

Definition sort_values_desc (l : list (scalar * nat)) : list (scalar * nat) :=
  foldr insert_desc [] l.

(** [series.value_counts()]: missing values are dropped ([dropna=True] is the
    default), every distinct value is counted, and the counts are sorted in
    descending order.  Values with equal counts are kept in order of
    appearance here; pandas leaves their order to its sort, which need not
    keep it, so that the order of the keys is that of pandas for the
    series that have no two values with the same count. *)
Definition value_counts (s : Series) : list (scalar * nat) :=
  let vals := dropna s in
  sort_values_desc ((λ v, (v, occurrences v vals)) <$> unique vals).

(** [series.isnull().sum()] *)
Definition isnull_sum (s : Series) : nat :=
  length (filter (λ c : cell, c = None) s).

(** [df.isnull().sum()]: the number of missing cells of every column, in
    column order. *)
Definition df_isnull_sum (df : DataFrame) : list (string * nat) :=
  imap (λ i name, (name, isnull_sum (column_at i df))) (columns df).

(** [series.isna().all()] *)
Definition isna_all {A} (s : list (option A)) : bool :=
  forallb (λ c, bool_decide (c = None)) s.

(** ** Timestamps *)

(** A [pandas.Timestamp] is its number of nanoseconds since the epoch;
    [None] is [NaT]. *)
Abbreviation Timestamp := Z.

(** [series.min()] and [series.max()] of a datetime series skip [NaT] and
    are [NaT] when nothing is left. *)
Definition series_min (s : list (option Timestamp)) : option Timestamp :=
  match omap id s with
  | [] => None
  | t :: ts => Some (foldl Z.min t ts)
  end.

Definition series_max (s : list (option Timestamp)) : option Timestamp :=
  match omap id s with
  | [] => None
  | t :: ts => Some (foldl Z.max t ts)
  end.

#[global] Instance result_fmap : FMap result := λ A B f m,
  match m with
  | Ok a => Ok (f a)
  | Raise e => Raise e
  end.

(** ** [DataProcessor.analyze_dataset] *)

(** The dict [analysis].  The key ['obs_date_range'] is only set when the
    table has an [observation_date] column: [obs_date_range] is [None] when
    the key is absent, and holds the values under ['min'] and ['max'] (each
    a date string or Python's [None]) otherwise. *)
Record Analysis : Type := mkAnalysis {
  record_counts : dict scalar nat;
  obs_date_range : option (option string * option string);
  unique_indicators_count : nat;
  sample_indicators : list scalar;
  missing_values : dict string nat
}.

Section Analyzer.
(** The two pandas date functions the analysis calls are taken as they
    are.  [to_datetime s v] is the timestamp that
    [pd.to_datetime(s, errors='coerce')] reads from the non-missing value
    [v] of the series [s], or [None] where [errors='coerce'] gives [NaT]:
    pandas may guess a format from the first values of the series and hold
    the others to it, so that what is read from a value depends on the
    series it stands in.  [strftime_ymd t] is [t.strftime('%Y-%m-%d')]. *)
Variable to_datetime : Series → scalar → option Timestamp.
Variable strftime_ymd : Timestamp → string.

(** [pd.to_datetime(series, errors='coerce')]: a missing value stays
    missing. *)
Definition to_datetime_coerce (s : Series) : list (option Timestamp) :=
  (λ c : cell, c ≫= to_datetime s) <$> s.

(** [ts.strftime('%Y-%m-%d')] on the result of [min()] or [max()]; [NaT]
    has no [strftime]. *)
Definition strftime_of (m : option Timestamp) : result string :=
  match m with
  | Some t => Ok (strftime_ymd t)
  | None => Raise (ValueError "NaTType does not support strftime")
  end.

(** Lines 48-53.  The converted column is only read here, so it is kept in
    [dates] instead of being stored back into [obs]. *)
Definition date_range (obs : DataFrame)
    : result (option (option string * option string)) :=
  if has_column "observation_date" obs then
    col ← getitem obs "observation_date";
    let dates := to_datetime_coerce col in
    lo ← (if negb (isna_all dates)
          then Some <$> strftime_of (series_min dates) else Ok None);
    hi ← (if negb (isna_all dates)
          then Some <$> strftime_of (series_max dates) else Ok None);
    Ok (Some (lo, hi))
  else Ok None.

(** [self.df[self.df['record_type'] == 'observation'].copy()] *)
Definition observation_rows (df : DataFrame) : result DataFrame :=
  rt ← getitem df "record_type";
  Ok (boolean_index df (series_eq rt (SStr "observation"))).

Definition analyze_dataset (df : DataFrame) : result Analysis :=
  (* Record type distribution *)
  rt ← getitem df "record_type";
  let counts := to_dict (value_counts rt) in
  (* Date ranges *)
  obs ← observation_rows df;
  range ← date_range obs;
  (* Unique indicators *)
  codes ← getitem obs "indicator_code";
  let unique_indicators := unique (dropna codes) in
  (* Missing values *)
  let missing := df_isnull_sum df in
  Ok {| record_counts := counts;
        obs_date_range := range;
        unique_indicators_count := length unique_indicators;
        sample_indicators := take 5 unique_indicators;
        missing_values := to_dict (filter (λ kv, 0 < kv.2)%nat missing) |}.
End Analyzer.

(** A date reader and a formatter to run the analysis with.  The reader
    takes an integer as a number of nanoseconds since the epoch and a
    string of the form [YYYY-MM-DD] as that day at midnight, as
    [pd.to_datetime] does, when the timestamp fits in 64 bits; it takes
    nothing else as a date, whatever the series: it stands for pandas on
    the series whose dates are written [YYYY-MM-DD].  The formatter follows
    the proleptic Gregorian calendar. *)
Module Sample.
(** Year, month and day of a number of days since 1970-01-01. *)
Definition civil_from_days (days : Z) : Z * Z * Z :=
  let z := (days + 719468)%Z in
  let era := (z `div` 146097)%Z in
  let doe := (z - era * 146097)%Z in
  let yoe :=
    ((doe - doe `div` 1460 + doe `div` 36524 - doe `div` 146096) `div` 365)%Z in
  let doy := (doe - (365 * yoe + yoe `div` 4 - yoe `div` 100))%Z in
  let mp := ((5 * doy + 2) `div` 153)%Z in
  let d := (doy - (153 * mp + 2) `div` 5 + 1)%Z in
  let m := (if decide (mp < 10)%Z then mp + 3 else mp - 9)%Z in
  let y := (yoe + era * 400 + (if decide (m ≤ 2)%Z then 1 else 0))%Z in
  (y, m, d).

(** The number of days from 1970-01-01 to the given day. *)
Definition days_from_civil (y m d : Z) : Z :=
  let y := (if decide (m ≤ 2)%Z then y - 1 else y)%Z in
  let era := (y `div` 400)%Z in
  let yoe := (y - era * 400)%Z in
  let doy :=
    ((153 * (if decide (2 < m)%Z then m - 3 else m + 9) + 2) `div` 5 + d - 1)%Z in
  let doe := (yoe * 365 + yoe `div` 4 - yoe `div` 100 + doy)%Z in
  (era * 146097 + doe - 719468)%Z.

Definition nanoseconds_per_day : Z := 86400000000000.

(** The value of a decimal digit. *)
Definition digit_value (c : ascii) : option Z :=
  let n := Z.of_N (Ascii.N_of_ascii c) in
  if decide (48 ≤ n ≤ 57)%Z then Some (n - 48)%Z else None.

(** The number written by a list of digits, after the digits [acc]. *)
Fixpoint number_from (acc : Z) (cs : list ascii) : option Z :=
  match cs with
  | [] => Some acc
  | c :: cs' => v ← digit_value c; number_from (10 * acc + v) cs'
  end.

(** The day written [YYYY-MM-DD], when there is such a day. *)
Definition parse_ymd (s : string) : option (Z * Z * Z) :=
  match list_ascii_of_string s with
  | [y1; y2; y3; y4; "-"%char; m1; m2; "-"%char; d1; d2] =>
      y ← number_from 0 [y1; y2; y3; y4];
      m ← number_from 0 [m1; m2];
      d ← number_from 0 [d1; d2];
      if decide (civil_from_days (days_from_civil y m d) = (y, m, d))
      then Some (y, m, d) else None
  | _ => None
  end.

(** A timestamp is a signed 64-bit number of nanoseconds, the least one
    standing for [NaT]. *)
Definition in_bounds (t : Z) : option Timestamp :=
  if decide (- 2 ^ 63 < t < 2 ^ 63)%Z then Some t else None.

Definition to_datetime (s : Series) (v : scalar) : option Timestamp :=
  match v with
  | SInt n => in_bounds n
  | SStr s =>
      '(y, m, d) ← parse_ymd s;
      in_bounds (days_from_civil y m d * nanoseconds_per_day)
  | SBool _ => None
  end.

Definition digit (n : Z) : string :=
  String (Ascii.ascii_of_nat (48 + Z.to_nat (n `mod` 10))) EmptyString.

Definition digits2 (n : Z) : string := digit (n `div` 10) +:+ digit n.

Definition digits4 (n : Z) : string :=
  digit (n `div` 1000) +:+ digit (n `div` 100) +:+ digits2 n.

Definition strftime_ymd (t : Timestamp) : string :=
  let '(y, m, d) := civil_from_days (t `div` nanoseconds_per_day)%Z in
  digits4 y +:+ "-" +:+ digits2 m +:+ "-" +:+ digits2 d.

Definition analyze_dataset : DataFrame → result Analysis :=
  analyze_dataset to_datetime strftime_ymd.
End Sample.

(** ** Python values and [json.dump] *)

(** The values the report is made of.  The keys of a dict are scalars, as
    the keys of [record_counts] are the values found in the table. *)
#[warnings="-register-all"]
Inductive pyvalue : Type :=
  | PNone
  | PBool (b : bool)
  | PInt (n : Z)
  | PStr (s : string)
  | PList (l : list pyvalue)
  | PDict (d : list (scalar * pyvalue)).

Definition scalar_value (v : scalar) : pyvalue :=
  match v with
  | SStr s => PStr s
  | SInt n => PInt n
  | SBool b => PBool b
  end.

Module Json.
Definition quote : string := String "034"%char EmptyString.
Definition backslash : string := String "092"%char EmptyString.
Definition newline : string := String "010"%char EmptyString.

Definition hex_digit (n : N) : string :=
  String (Ascii.ascii_of_N (if decide (n < 10)%N then 48 + n else 87 + n))
         EmptyString.

(** One character of [py_encode_basestring_ascii]: everything outside
    [' '..'~'], the quote and the backslash are escaped.  A character of a
    [string] is a code point below 256. *)
Definition escape_char (c : ascii) : string :=
  let n := Ascii.N_of_ascii c in
  if decide (n = 34)%N then backslash +:+ quote
  else if decide (n = 92)%N then backslash +:+ backslash
  else if decide (n = 10)%N then backslash +:+ "n"
  else if decide (n = 13)%N then backslash +:+ "r"
  else if decide (n = 9)%N then backslash +:+ "t"
  else if decide (n = 12)%N then backslash +:+ "f"
  else if decide (n = 8)%N then backslash +:+ "b"
  else if decide (32 ≤ n ≤ 126)%N then String c EmptyString
  else backslash +:+ "u00" +:+ hex_digit (n `div` 16) +:+ hex_digit (n `mod` 16).

Fixpoint escape (s : string) : string :=
  match s with
  | EmptyString => EmptyString
  | String c s' => escape_char c +:+ escape s'
  end.

Definition encode_basestring_ascii (s : string) : string :=
  quote +:+ escape s +:+ quote.

(** The key of a JSON object: a string as it is, [True] and [False] as
    [true] and [false], an integer in decimal. *)
Definition key_str (k : scalar) : string :=
  match k with
  | SStr s => s
  | SInt n => pretty n
  | SBool true => "true"
  | SBool false => "false"
  end.

Fixpoint spaces (n : nat) : string :=
  match n with
  | O => EmptyString
  | S n' => String " "%char (spaces n')
  end.

(** ['\n' + ' ' * (indent * level)] *)
Definition newline_indent (indent level : nat) : string :=
  newline +:+ spaces (indent * level).

Fixpoint join (sep : string) (l : list string) : string :=
  match l with
  | [] => EmptyString
  | [x] => x
  | x :: l' => x +:+ sep +:+ join sep l'
  end.

(** [json.dumps(v, indent=indent)] at nesting depth [level]: the items of
    a non-empty list or dict are put one per line, each after
    [indent * (level + 1)] spaces, separated by [','], with [': '] between
    a key and its value. *)
Fixpoint encode (indent level : nat) (v : pyvalue) : string :=
  match v with
  | PNone => "null"
  | PBool true => "true"
  | PBool false => "false"
  | PInt n => pretty n
  | PStr s => encode_basestring_ascii s
  | PList [] => "[]"
  | PList l =>
      "[" +:+ newline_indent indent (S level)
      +:+ join ("," +:+ newline_indent indent (S level))
               (map (encode indent (S level)) l)
      +:+ newline_indent indent level +:+ "]"
  | PDict [] => "{}"
  | PDict d =>
      "{" +:+ newline_indent indent (S level)
      +:+ join ("," +:+ newline_indent indent (S level))
               (map (λ kv, encode_basestring_ascii (key_str (fst kv))
                           +:+ ": " +:+ encode indent (S level) (snd kv)) d)
      +:+ newline_indent indent level +:+ "}"
  end.

Definition dumps (indent : nat) (v : pyvalue) : string := encode indent 0 v.
End Json.

(** ** The file system, the standard output and the processor object *)

(** What a file holds: the text of a table, named by the frame [read_csv]
    reads from it and [to_csv] writes it from, or any other text. *)
Inductive content : Type :=
  | Csv (table : DataFrame)
  | Text (s : string).

Inductive node : Type :=
  | Dir (writable : bool)
  | File (readable writable : bool) (c : content).

(** [p.parent]; the parent of ['.'] is ['.']. *)
Definition parent (p : path) : path := take (length p - 1) p.

Definition nl : string := String "010"%char EmptyString.

(** A line written by [print]: a literal text, or the text of an f-string
    before its value together with that value. *)
Inductive printed : Type :=
  | Line (s : string)
  | LineShape (label : string) (shape : nat * nat)
  | LineExn (label : string) (e : exn)
  | LineNat (label : string) (n : nat)
  | LineCounts (label : string) (d : dict scalar nat)
  | LineRange (label : string) (r : option string * option string)
  | LinePath (label : string) (p : path).

Record World : Type := mkWorld {
  files : gmap path node;
  stdout : list printed
}.

(** A computation on the world that may raise; what it did before raising
    stays done. *)
Definition IO (A : Type) : Type := World → result A * World.

#[global] Instance IO_ret : MRet IO := λ A a w, (Ok a, w).
#[global] Instance IO_bind : MBind IO := λ A B k m w,
  match m w with
  | (Ok a, w') => k a w'
  | (Raise e, w') => (Raise e, w')
  end.

Definition raise {A} (e : exn) : IO A := λ w, (Raise e, w).

Definition lift {A} (r : result A) : IO A := λ w, (r, w).

Definition print (l : printed) : IO unit := λ w,
  (Ok (), {| files := files w; stdout := stdout w ++ [l] |}).

(** An operation on the files alone. *)
Definition fs_io {A} (op : gmap path node → result A * gmap path node) : IO A :=
  λ w, let '(r, fs) := op (files w) in (r, {| files := fs; stdout := stdout w |}).

(** [os.mkdir(p)] *)
Definition os_mkdir (p : path) (fs : gmap path node)
    : result unit * gmap path node :=
  match fs !! p with
  | Some _ => (Raise (FileExistsError p), fs)
  | None =>
      match fs !! parent p with
      | None => (Raise (FileNotFoundError p), fs)
      | Some (File _ _ _) => (Raise (NotADirectoryError p), fs)
      | Some (Dir false) => (Raise (PermissionError p), fs)
      | Some (Dir true) => (Ok (), <[p := Dir true]> fs)
      end
  end.

Definition is_dir (p : path) (fs : gmap path node) : bool :=
  match fs !! p with
  | Some (Dir _) => true
  | _ => false
  end.

(** [p.mkdir(parents=False, exist_ok=True)] *)
Definition mkdir_exist_ok (p : path) (fs : gmap path node)
    : result unit * gmap path node :=
  match os_mkdir p fs with
  | (Ok u, fs') => (Ok u, fs')
  | (Raise (FileNotFoundError q), fs') => (Raise (FileNotFoundError q), fs')
  | (Raise e, fs') => if is_dir p fs' then (Ok (), fs') else (Raise e, fs')
  end.

(** [p.mkdir(parents=True, exist_ok=True)] for the path made of the first
    [n] components of [p]: when a parent is missing, the parents are made
    first and the directory is made again. *)
Fixpoint mkdir_parents_upto (n : nat) (p : path) (fs : gmap path node)
    : result unit * gmap path node :=
  match os_mkdir (take n p) fs with
  | (Ok u, fs') => (Ok u, fs')
  | (Raise (FileNotFoundError q), fs') =>
      match n with
      | O => (Raise (FileNotFoundError q), fs')
      | S n' =>
          match mkdir_parents_upto n' p fs' with
          | (Ok _, fs'') => mkdir_exist_ok (take n p) fs''
          | (Raise e, fs'') => (Raise e, fs'')
          end
      end
  | (Raise e, fs') => if is_dir (take n p) fs' then (Ok (), fs') else (Raise e, fs')
  end.

Definition mkdir_parents (p : path) (fs : gmap path node)
    : result unit * gmap path node :=
  mkdir_parents_upto (length p) p fs.

(** Looking for [p] when nothing is at [p]: the path is walked from its
    first component, and the walk ends at the first component that is
    missing, with a [FileNotFoundError], or that is a file, with a
    [NotADirectoryError].  [walk_upto n p fs] is the outcome of the walk
    over the first [n] components, [None] when they are all directories. *)
Fixpoint walk_upto (n : nat) (p : path) (fs : gmap path node) : option exn :=
  match n with
  | O => None
  | S n' =>
      match walk_upto n' p fs with
      | Some e => Some e
      | None =>
          match fs !! take (S n') p with
          | None => Some (FileNotFoundError p)
          | Some (File _ _ _) => Some (NotADirectoryError p)
          | Some (Dir _) => None
          end
      end
  end.

(** What [open(p)] raises when nothing is at [p]. *)
Definition open_missing (p : path) (fs : gmap path node) : exn :=
  default (FileNotFoundError p) (walk_upto (length p - 1) p fs).

(** [pd.read_csv(p)] *)
Definition read_csv (p : path) (fs : gmap path node)
    : result DataFrame * gmap path node :=
  match fs !! p with
  | None => (Raise (open_missing p fs), fs)
  | Some (Dir _) => (Raise (IsADirectoryError p), fs)
  | Some (File false _ _) => (Raise (PermissionError p), fs)
  | Some (File true _ (Csv table)) => (Ok table, fs)
  | Some (File true _ (Text _)) => (Raise (ParserError p), fs)
  end.

(** [open(p, 'w')], the write of [c] and the close. *)
Definition write_file (p : path) (c : content) (fs : gmap path node)
    : result unit * gmap path node :=
  match fs !! p with
  | Some (Dir _) => (Raise (IsADirectoryError p), fs)
  | Some (File _ false _) => (Raise (PermissionError p), fs)
  | Some (File r true _) => (Ok (), <[p := File r true c]> fs)
  | None =>
      match fs !! parent p with
      | None => (Raise (FileNotFoundError p), fs)
      | Some (File _ _ _) => (Raise (NotADirectoryError p), fs)
      | Some (Dir false) => (Raise (PermissionError p), fs)
      | Some (Dir true) => (Ok (), <[p := File true true c]> fs)
      end
  end.

(** The attributes of a [DataProcessor]; [df] and [ref_codes] are set by
    [load_data]. *)
Record DataProcessor : Type := mkDataProcessor {
  data_dir : path;
  raw_dir : path;
  processed_dir : path;
  df : option DataFrame;
  ref_codes : option DataFrame
}.

(** [DataProcessor.__init__] *)
Definition init (data_dir : path) : IO DataProcessor :=
  let self := {| data_dir := data_dir;
                 raw_dir := data_dir ++ ["raw"];
                 processed_dir := data_dir ++ ["processed"];
                 df := None;
                 ref_codes := None |} in
  (* Create directories if they don't exist *)
  _ ← fs_io (mkdir_parents (processed_dir self));
  mret self.

Definition unified_data_path (self : DataProcessor) : path :=
  raw_dir self ++ ["ethiopia_fi_unified_data.csv"].

Definition reference_codes_path (self : DataProcessor) : path :=
  raw_dir self ++ ["reference_codes.csv"].

Definition set_df (table : DataFrame) (self : DataProcessor) : DataProcessor :=
  {| data_dir := data_dir self; raw_dir := raw_dir self;
     processed_dir := processed_dir self;
     df := Some table; ref_codes := ref_codes self |}.

Definition set_ref_codes (table : DataFrame) (self : DataProcessor)
    : DataProcessor :=
  {| data_dir := data_dir self; raw_dir := raw_dir self;
     processed_dir := processed_dir self;
     df := df self; ref_codes := Some table |}.

(** The handler of [load_data]: [except FileNotFoundError as e]. *)
Definition load_data_except (e : exn) (self : DataProcessor)
    : IO (bool * DataProcessor) :=
  match e with
  | FileNotFoundError _ =>
      _ ← print (LineExn "Error loading data: " e);
      mret (false, self)
  | _ => raise e
  end.

(** [DataProcessor.load_data]: the result and the object as the call leaves
    it. *)
Definition load_data (self : DataProcessor) : IO (bool * DataProcessor) := λ w,
  let '(_, w) := print (Line "Loading datasets...") w in
  match fs_io (read_csv (unified_data_path self)) w with
  | (Raise e, w) => load_data_except e self w
  | (Ok main_table, w) =>
      let self := set_df main_table self in
      match fs_io (read_csv (reference_codes_path self)) w with
      | (Raise e, w) => load_data_except e self w
      | (Ok ref_table, w) =>
          let self := set_ref_codes ref_table self in
          (_ ← print (LineShape "Main dataset: " (df_shape main_table));
           _ ← print (LineShape "Reference codes: " (df_shape ref_table));
           mret (true, self)) w
      end
  end.

(** ** The enrichment template, the report and [main] *)

(** [DataProcessor.create_enrichment_template]: per record category, the
    required and the optional fields. *)
Definition create_enrichment_template
    : dict string (dict string (list string)) :=
  [ ("observation",
      [ ("required", ["pillar"; "indicator"; "indicator_code"; "value_numeric";
                      "observation_date"; "source_name"; "source_url"]);
        ("optional", ["source_type"; "confidence"; "notes"; "collected_by";
                      "collection_date"]) ]);
    ("event",
      [ ("required", ["event_name"; "event_category"; "event_date";
                      "description"]);
        ("optional", ["source_name"; "source_url"; "confidence"; "notes"]) ]);
    ("impact_link",
      [ ("required", ["parent_id"; "pillar"; "related_indicator";
                      "impact_direction"]);
        ("optional", ["impact_magnitude"; "lag_months"; "evidence_basis";
                      "notes"]) ]) ].

Definition py_opt_str (o : option string) : pyvalue :=
  match o with
  | Some s => PStr s
  | None => PNone
  end.

Definition py_counts {K} (key : K → scalar) (d : dict K nat) : pyvalue :=
  PDict ((λ kv, (key kv.1, PInt (Z.of_nat kv.2))) <$> d).

(** The dict that [analyze_dataset] returns, as a Python value. *)
Definition analysis_dict (a : Analysis) : pyvalue :=
  PDict (
    [ (SStr "record_counts", py_counts id (record_counts a)) ]
    ++ match obs_date_range a with
       | Some (lo, hi) =>
           [ (SStr "obs_date_range",
              PDict [ (SStr "min", py_opt_str lo); (SStr "max", py_opt_str hi) ]) ]
       | None => []
       end
    ++ [ (SStr "unique_indicators_count",
          PInt (Z.of_nat (unique_indicators_count a)));
         (SStr "sample_indicators", PList (scalar_value <$> sample_indicators a));
         (SStr "missing_values", py_counts SStr (missing_values a)) ]).

(** [len(new_records.get(key, []))] *)
Definition new_count (new_records : gmap string (list pyvalue)) (key : string)
    : Z :=
  Z.of_nat (length (default [] (new_records !! key))).

(** The dict [report] of [generate_report]; [now] is
    [datetime.now().isoformat()]. *)
Definition build_report (now : string) (analysis : pyvalue)
    (new_records : gmap string (list pyvalue)) : pyvalue :=
  PDict
    [ (SStr "generated_date", PStr now);
      (SStr "dataset_analysis", analysis);
      (SStr "enrichment_summary",
        PDict [ (SStr "new_observations", PInt (new_count new_records "observations"));
                (SStr "new_events", PInt (new_count new_records "events"));
                (SStr "new_impact_links",
                  PInt (new_count new_records "impact_links")) ]);
      (SStr "data_quality_issues", PList []);
      (SStr "recommendations", PList []) ].

Definition report_path (self : DataProcessor) : path :=
  processed_dir self ++ ["task1_report.json"].

(** [DataProcessor.generate_report], with the reading [now] of the clock. *)
Definition generate_report (self : DataProcessor) (now : string)
    (analysis : pyvalue) (new_records : gmap string (list pyvalue)) : IO path :=
  let report := build_report now analysis new_records in
  (* Save report *)
  _ ← fs_io (write_file (report_path self) (Text (Json.dumps 2 report)));
  mret (report_path self).

(** [DataProcessor.save_enriched_data] *)
Definition save_enriched_data (self : DataProcessor) (enriched_df : DataFrame)
    (filename : string) : IO path :=
  let save_path := processed_dir self ++ [filename] in
  _ ← fs_io (write_file save_path (Csv enriched_df));
  _ ← print (LinePath "Enriched data saved to: " save_path);
  mret save_path.

(** [self.df]; the attribute does not exist before [load_data]. *)
Definition self_df (self : DataProcessor) : IO DataFrame :=
  match df self with
  | Some table => mret table
  | None => raise (AttributeError "df")
  end.

Section Main.
Variable to_datetime : Series → scalar → option Timestamp.
Variable strftime_ymd : Timestamp → string.

Definition banner : string :=
  "============================================================".

(** [main], with the reading [now] of the clock.  The literals are those of
    the source file, character by character, in UTF-8. *)
Definition main (now : string) : IO unit :=
  _ ← print (Line banner);
  _ ← print (Line "TASK 1: DATA EXPLORATION AND ENRICHMENT");
  _ ← print (Line banner);
  (* Initialize processor *)
  processor ← init [".."; "data"];
  (* Load data *)
  loaded ← load_data processor;
  let '(ok, processor) := loaded in
  if negb ok then mret () else
  (* Analyze dataset *)
  _ ← print (Line (nl +:+ "Analyzing dataset..."));
  table ← self_df processor;
  analysis ← lift (analyze_dataset to_datetime strftime_ymd table);
  _ ← print (Line (nl +:+ "Dataset Summary:"));
  _ ← print (LineNat "- Total records: " (df_len table));
  _ ← print (LineCounts "- Record types: " (record_counts analysis));
  _ ← print (LineNat "- Unique indicators: " (unique_indicators_count analysis));
  range ← match obs_date_range analysis with
          | Some r => mret r
          | None => raise (KeyError "obs_date_range")
          end;
  _ ← print (LineRange "- Observation date range: " range);
  (* Create enrichment template *)
  let template := create_enrichment_template in
  _ ← print (Line (nl +:+ "Enrichment template created."));
  _ ← save_enriched_data processor table "ethiopia_fi_enriched.csv";
  (* Generate report *)
  report_path ← generate_report processor now (analysis_dict analysis) ∅;
  _ ← print (LinePath (nl +:+ "Report generated: ") report_path);
  print (Line (nl +:+ "âœ… Task 1 processing completed!")).

(** Running the module as a script: the exit status is 0 when [main]
    returns and 1 when an exception is not caught. *)
Definition run_script (now : string) (w : World) : Z * World :=
  match main now w with
  | (Ok _, w') => (0%Z, w')
  | (Raise _, w') => (1%Z, w')
  end.
End Main.

(** ** [calculate_growth_metrics] *)

Module Growth.
(** The numbers are Python's built-in floats, that is IEEE 754 binary64
    numbers with the arithmetic of [float]; numpy scalars, whose division
    by zero gives an infinity or a NaN and whose power gives no complex
    number, are another arithmetic and are not covered. *)

(** [x / y] on built-in floats raises when the divisor is zero (of either
    sign). *)
Definition float_div (x y : float) : result float :=
  if PrimFloat.eqb y 0%float then Raise ZeroDivisionError
  else Ok (PrimFloat.div x y).

(** [float(n)] for a length [n]. *)
Definition float_of_len (n : nat) : float :=
  PrimFloat.of_uint63 (Uint63.of_Z (Z.of_nat n)).

(** What [x ** y] gives: a float, a complex number (a negative base with a
    fractional exponent), or an exception. *)
Inductive power : Type :=
  | PowFloat (x : float)
  | PowComplex
  | PowRaise (e : exn).

(** The value of [cagr]. *)
Inductive number : Type :=
  | NFloat (x : float)
  | NComplex.

Record metrics : Type := mkMetrics {
  total_growth_pp : float;
  annual_growth_pp : float;
  cagr_percent : number;
  doubling_time : option float
}.

Section Metrics.
(** [x ** y] on floats, from the C library. *)
Variable float_pow : float → float → power.

(** [((last / current_value) ** (1/len(years)) - 1) * 100].  The quotient
    [1/len(years)] of two integers is the float nearest to it, which is
    [1.0 / float(len(years))]. *)
Definition cagr_of (current_value last : float) (n_years : nat)
    : result number :=
  ratio ← float_div last current_value;
  exponent ← float_div 1%float (float_of_len n_years);
  match float_pow ratio exponent with
  | PowFloat p => Ok (NFloat (PrimFloat.mul (PrimFloat.sub p 1%float) 100%float))
  | PowComplex => Ok NComplex
  | PowRaise e => Raise e
  end.

(** [72 / cagr if cagr > 0 else None]; a complex number cannot be
    compared with [0]. *)
Definition doubling_time_of (cagr : number) : result (option float) :=
  match cagr with
  | NFloat c =>
      if PrimFloat.ltb 0%float c then Some <$> float_div 72%float c
      else Ok None
  | NComplex =>
      Raise (TypeError "'>' not supported between instances of 'complex' and 'int'")
  end.

(** The result is [None] for the empty dict [{}]. *)
Definition calculate_growth_metrics (current_value : float)
    (forecast_values : list float) {A} (years : list A)
    : result (option metrics) :=
  if decide (length forecast_values < 2)%nat then Ok None else
  match last forecast_values with
  | None => Raise IndexError
  | Some final =>
      let total_growth := PrimFloat.sub final current_value in
      annual_growth ← float_div total_growth (float_of_len (length years));
      cagr ← cagr_of current_value final (length years);
      doubling ← doubling_time_of cagr;
      Ok (Some {| total_growth_pp := total_growth;
                  annual_growth_pp := annual_growth;
                  cagr_percent := cagr;
                  doubling_time := doubling |})
  end.
End Metrics.

(** A power function to run the metrics with over one year, where the
    exponent is [1/1] and [x ** 1.0] is [x]; the examples use no other
    exponent, which is answered with an [OverflowError]. *)
Definition pow_one_year (x y : float) : power :=
  if PrimFloat.eqb y 1%float then PowFloat x else PowRaise OverflowError.
End Growth.

(** ** The other utilities of the dashboard *)

Module Dashboard.
(** A column of a forecast table: 64-bit integers, floats, or strings. *)
Inductive column : Type :=
  | IntColumn (l : list Z)
  | FloatColumn (l : list float)
  | ObjectColumn (l : list string).

(** A forecast table: its columns by name, in order, as in
    [pd.DataFrame({...})]. *)
Abbreviation frame := (dict string column).

#[warnings="-inexact-float"]
Definition sample_account_forecast : frame :=
  [ ("Year", IntColumn [2025; 2026; 2027]%Z);
    ("Base Forecast (%)", FloatColumn [52.5; 55.8; 58.2]%float);
    ("80% CI Lower (%)", FloatColumn [50.1; 52.8; 54.9]%float);
    ("80% CI Upper (%)", FloatColumn [54.9; 58.8; 61.5]%float);
    ("Optimistic Scenario (%)", FloatColumn [54.2; 58.1; 62.3]%float);
    ("Pessimistic Scenario (%)", FloatColumn [50.8; 53.5; 56.1]%float) ].

#[warnings="-inexact-float"]
Definition sample_payment_forecast : frame :=
  [ ("Year", IntColumn [2025; 2026; 2027]%Z);
    ("Base Forecast (%)", FloatColumn [40.2; 44.5; 48.3]%float);
    ("80% CI Lower (%)", FloatColumn [38.1; 41.8; 45.2]%float);
    ("80% CI Upper (%)", FloatColumn [42.3; 47.2; 51.4]%float);
    ("Optimistic Scenario (%)", FloatColumn [42.5; 47.8; 53.2]%float);
    ("Pessimistic Scenario (%)", FloatColumn [38.1; 41.2; 44.5]%float) ].

Definition account_forecast_file : string := "forecast_table_ACC_OWNERSHIP.csv".
Definition payment_forecast_file : string :=
  "forecast_table_USG_DIGITAL_PAYMENT.csv".

Section Loading.
(** The files as [pd.read_csv] finds them. *)
Variable read_csv : path → result frame.

(** The body of the [try] of [load_forecast_data]. *)
Definition read_forecasts (data_dir : path) : result (frame * frame) :=
  account_forecast ← read_csv (data_dir ++ [account_forecast_file]);
  payment_forecast ← read_csv (data_dir ++ [payment_forecast_file]);
  Ok (account_forecast, payment_forecast).

Definition load_forecast_data (data_dir : path) : result (frame * frame) :=
  match read_forecasts data_dir with
  | Raise (FileNotFoundError _) =>
      (* Return sample data if files don't exist *)
      Ok (sample_account_forecast, sample_payment_forecast)
  | r => r
  end.
End Loading.

(** The float nearest to a 64-bit integer. *)
Definition float_of_int64 (n : Z) : float :=
  if decide (n = - 2 ^ 63)%Z then PrimFloat.opp 0x1p+63%float
  else if decide (n < 0)%Z
       then PrimFloat.opp (PrimFloat.of_uint63 (Uint63.of_Z (- n)))
       else PrimFloat.of_uint63 (Uint63.of_Z n).

(** [series * m] for a float [m]: the integers are converted first, and
    strings cannot be multiplied by a float. *)
Definition series_mul (c : column) (m : float) : result column :=
  match c with
  | FloatColumn l => Ok (FloatColumn ((λ x, PrimFloat.mul x m) <$> l))
  | IntColumn l =>
      Ok (FloatColumn ((λ n, PrimFloat.mul (float_of_int64 n) m) <$> l))
  | ObjectColumn [] => Ok (ObjectColumn [])
  | ObjectColumn _ =>
      Raise (TypeError "can't multiply sequence by non-int of type 'float'")
  end.

Definition base_forecast_column : string := "Base Forecast (%)".

(** The defaults of the two multipliers. *)
#[warnings="-inexact-float"]
Definition default_optimistic_multiplier : float := 1.2.

#[warnings="-inexact-float"]
Definition default_pessimistic_multiplier : float := 0.8.

(** [generate_scenario_data] *)
Definition generate_scenario_data (base_forecast : frame)
    (optimistic_multiplier pessimistic_multiplier : float)
    : result (frame * frame) :=
  let optimistic := base_forecast in
  let pessimistic := base_forecast in
  if bool_decide (base_forecast_column ∈ base_forecast.*1) then
    base ← match dict_get base_forecast_column base_forecast with
           | Some c => Ok c
           | None => Raise (KeyError base_forecast_column)
           end;
    scaled_up ← series_mul base optimistic_multiplier;
    let optimistic := dict_set base_forecast_column scaled_up optimistic in
    scaled_down ← series_mul base pessimistic_multiplier;
    let pessimistic := dict_set base_forecast_column scaled_down pessimistic in
    Ok (optimistic, pessimistic)
  else Ok (optimistic, pessimistic).

(** The [delta] of a metric card: an integer, a float or a string. *)
Inductive delta_value : Type :=
  | DeltaInt (n : Z)
  | DeltaFloat (x : float)
  | DeltaStr (s : string).

(** [bool(delta)] *)
Definition truth (delta : option delta_value) : bool :=
  match delta with
  | None => false
  | Some (DeltaInt n) => negb (bool_decide (n = 0%Z))
  | Some (DeltaFloat x) => negb (PrimFloat.eqb x 0%float)
  | Some (DeltaStr s) => negb (bool_decide (s = EmptyString))
  end.

(** [delta > 0]; a string cannot be compared with an integer. *)
Definition positive (delta : delta_value) : result bool :=
  match delta with
  | DeltaInt n => Ok (bool_decide (0 < n)%Z)
  | DeltaFloat x => Ok (PrimFloat.ltb 0%float x)
  | DeltaStr _ =>
      Raise (TypeError "'>' not supported between instances of 'str' and 'int'")
  end.

Definition div_open (class : string) : string :=
  "<div class=" +:+ Json.quote +:+ class +:+ Json.quote +:+ ">".

Section Card.
(** [str(x)] of a float. *)
Variable float_str : float → string.

(** [f"{delta}"] *)
Definition delta_str (delta : delta_value) : string :=
  match delta with
  | DeltaInt n => pretty n
  | DeltaFloat x => float_str x
  | DeltaStr s => s
  end.

(** The card around its three parts. *)
Definition card (title value delta_html : string) : string :=
  nl +:+ "    " +:+ div_open "metric-card" +:+ nl
  +:+ "        " +:+ div_open "metric-title" +:+ title +:+ "</div>" +:+ nl
  +:+ "        " +:+ div_open "metric-value" +:+ value +:+ "</div>" +:+ nl
  +:+ "        " +:+ delta_html +:+ nl
  +:+ "    </div>" +:+ nl
  +:+ "    ".

Definition create_metric_card (title value : string)
    (delta : option delta_value) (delta_color : string) : result string :=
  delta_html ←
    (if truth delta then
       match delta with
       | Some d =>
           is_positive ← positive d;
           let delta_sign := if is_positive : bool then "+" else EmptyString in
           let delta_class :=
             if bool_decide (delta_color = "normal")
             then "delta-positive" else "delta-negative" in
           Ok (div_open delta_class +:+ delta_sign +:+ delta_str d +:+ "</div>")
       | None => Ok EmptyString
       end
     else Ok EmptyString);
  Ok (card title value delta_html).
End Card.
End Dashboard.

(** ** The analysis in the words of the specification *)

(** The cell of the row [r] under the column [name]; it is missing when the
    table has no such column. *)
Definition cell_of (df : DataFrame) (name : string) (r : list cell) : cell :=
  match column_index name (columns df) with
  | Some i => row_cell i r
  | None => None
  end.

(** The observation rows: the rows whose [record_type] is ["observation"]. *)
Definition is_observation (df : DataFrame) (r : list cell) : Prop :=
  cell_of df "record_type" r = Some (SStr "observation").

#[global] Instance is_observation_dec df r : Decision (is_observation df r).
Proof. unfold is_observation. apply _. Defined.

Definition observations (df : DataFrame) : list (list cell) :=
  filter (is_observation df) (rows df).

(** The literal [record_type] of every row that has one, in row order. *)
Definition record_types (df : DataFrame) : list scalar :=
  omap (cell_of df "record_type") (rows df).

(** The number of rows whose [record_type] is missing. *)
Definition null_record_types (df : DataFrame) : nat :=
  length (filter (λ r, cell_of df "record_type" r = None) (rows df)).

(** The [observation_date] cells of the observation rows, in row order. *)
Definition observation_dates (df : DataFrame) : Series :=
  cell_of df "observation_date" <$> observations df.

(** The dates of the observation rows that the date reader accepts, the
    reader being given the dates of the observation rows. *)
Definition valid_observation_dates
    (to_datetime : Series → scalar → option Timestamp)
    (df : DataFrame) : list Timestamp :=
  omap (λ c : cell, c ≫= to_datetime (observation_dates df))
       (observation_dates df).

(** The date range is absent: the key is not set, or both ends are null. *)
Definition date_range_absent (r : option (option string * option string))
    : Prop :=
  r = None ∨ r = Some (None, None).

(** The indicator codes of the observation rows that are not missing. *)
Definition observation_indicator_codes (df : DataFrame) : list scalar :=
  omap (cell_of df "indicator_code") (observations df).

(** The distinct values of a list in encounter order: a position is kept
    when its value does not occur at an earlier position. *)
Definition first_occurrences (l : list scalar) : list scalar :=
  (filter (λ ix, ix.2 ∉ take ix.1 l) (imap pair l)).*2.

(** ** Example tables *)

Definition obs_row (code date : cell) : list cell :=
  [Some (SStr "observation"); code; date].

(** Three observations, one of them dated the 30th of February, and one
    event. *)
Definition scenario_table : DataFrame :=
  {| columns := ["record_type"; "indicator_code"; "observation_date"];
     rows := [ obs_row (Some (SStr "ACC_OWNERSHIP")) (Some (SStr "2023-11-14"));
               obs_row (Some (SStr "USG_DIGITAL_PAYMENT")) (Some (SStr "2021-02-30"));
               [Some (SStr "event"); None; None];
               obs_row (Some (SStr "ACC_OWNERSHIP")) (Some (SStr "2000-02-29")) ] |}.

(** One row, whose [record_type] is missing. *)
Definition null_type_table : DataFrame :=
  {| columns := ["record_type"; "indicator_code"];
     rows := [ [None; Some (SStr "ACC_OWNERSHIP")] ] |}.

(** Observations without a readable date, and a dated event. *)
Definition undated_table : DataFrame :=
  {| columns := ["record_type"; "indicator_code"; "observation_date"];
     rows := [ obs_row (Some (SStr "ACC_OWNERSHIP")) (Some (SStr "unknown"));
               obs_row (Some (SStr "ACC_OWNERSHIP")) None;
               [Some (SStr "event"); None; Some (SStr "2024-05-01")] ] |}.

(** No rows, and the [record_type] column only. *)
Definition header_only_table : DataFrame :=
  {| columns := ["record_type"]; rows := [] |}.

(** The analysis expected of [scenario_table]. *)
Definition scenario_analysis : Analysis :=
  {| record_counts := [(SStr "observation", 3%nat); (SStr "event", 1%nat)];
     obs_date_range := Some (Some "2000-02-29", Some "2023-11-14");
     unique_indicators_count := 2;
     sample_indicators := [SStr "ACC_OWNERSHIP"; SStr "USG_DIGITAL_PAYMENT"];
     missing_values := [("indicator_code", 1%nat); ("observation_date", 1%nat)] |}.

(** The analysis expected of [undated_table]. *)
Definition undated_analysis : Analysis :=
  {| record_counts := [(SStr "observation", 2%nat); (SStr "event", 1%nat)];
     obs_date_range := Some (None, None);
     unique_indicators_count := 1;
     sample_indicators := [SStr "ACC_OWNERSHIP"];
     missing_values := [("indicator_code", 1%nat); ("observation_date", 1%nat)] |}.

(** The order of [record_counts]: the larger count first. *)
Definition by_count_desc (x y : scalar * nat) : Prop := (y.2 ≤ x.2)%nat.

(** The number of missing cells of the column [c], when it has some. *)
Definition missing_in (df : DataFrame) (c : string) : option nat :=
  k ← column_index c (columns df);
  let n := isnull_sum (column_at k df) in
  if decide (0 < n)%nat then Some n else None.

(** [scenario_table] without its event. *)
Definition observations_only_table : DataFrame :=
  {| columns := columns scenario_table;
     rows := observations scenario_table |}.

(** ** The report in the words of the specification *)

(** [v[key]] of a dict with string keys *)
Definition py_get (key : string) (v : pyvalue) : option pyvalue :=
  match v with
  | PDict d => dict_get (SStr key) d
  | _ => None
  end.

(** The destination can be opened for writing: it is a writable file, or it
    does not exist and its parent is a writable directory. *)
Definition writable (dest : path) (fs : gmap path node) : Prop :=
  (∃ r c, fs !! dest = Some (File r true c))
  ∨ (fs !! dest = None ∧ fs !! parent dest = Some (Dir true)).

(** A component of [p] before the last is a file, the components before
    it being directories: [p] cannot be looked for. *)
Definition under_file (p : path) (fs : gmap path node) : Prop :=
  ∃ k rd wr c, (0 < k < length p)%nat
    ∧ fs !! take k p = Some (File rd wr c)
    ∧ ∀ j, (0 < j < k)%nat → is_dir (take j p) fs = true.

(** [fs'] has the nodes of [fs] and, besides, new directories at prefixes
    of [p] only. *)
Definition dirs_added (p : path) (fs fs' : gmap path node) : Prop :=
  ∀ q, fs' !! q = fs !! q
       ∨ (fs !! q = None ∧ fs' !! q = Some (Dir true) ∧ ∃ k, q = take k p).

(** What [main] prints before it loads the data. *)
Definition header : list printed :=
  [ Line banner; Line "TASK 1: DATA EXPLORATION AND ENRICHMENT"; Line banner ].

(** The files that [main] reads. *)
Definition main_unified_data : path :=
  [".."; "data"; "raw"; "ethiopia_fi_unified_data.csv"].

Definition main_reference_codes : path :=
  [".."; "data"; "raw"; "reference_codes.csv"].

(** The object that [DataProcessor()] makes. *)
Definition default_processor : DataProcessor :=
  {| data_dir := [".."; "data"];
     raw_dir := [".."; "data"; "raw"];
     processed_dir := [".."; "data"; "processed"];
     df := None;
     ref_codes := None |}.

(** ** Example worlds *)

Definition reference_table : DataFrame :=
  {| columns := ["field"; "code"; "description"];
     rows := [ [Some (SStr "record_type"); Some (SStr "observation");
                Some (SStr "A measured value")] ] |}.

(** The parent of the working directory exists and nothing else does. *)
Definition world_without_inputs : World :=
  {| files := {[ [".."] := Dir true ]}; stdout := [] |}.

(** The data directory exists, and [raw] is a file in it. *)
Definition world_raw_is_file : World :=
  {| files := {[ [".."] := Dir true;
                 [".."; "data"] := Dir true;
                 [".."; "data"; "raw"] := File true true (Text "raw") ]};
     stdout := [] |}.

(** The raw directory exists, with an unreadable main table. *)
Definition world_unreadable_input : World :=
  {| files := {[ [".."] := Dir true;
                 [".."; "data"] := Dir true;
                 [".."; "data"; "raw"] := Dir true;
                 [".."; "data"; "raw"; "ethiopia_fi_unified_data.csv"] :=
                   File false false (Csv scenario_table) ]};
     stdout := [] |}.

(** Both input tables are in place, and so is the output directory. *)
Definition world_with_inputs : World :=
  {| files := {[ [".."] := Dir true;
                 [".."; "data"] := Dir true;
                 [".."; "data"; "raw"] := Dir true;
                 [".."; "data"; "raw"; "ethiopia_fi_unified_data.csv"] :=
                   File true true (Csv scenario_table);
                 [".."; "data"; "raw"; "reference_codes.csv"] :=
                   File true true (Csv reference_table);
                 [".."; "data"; "processed"] := Dir true ]};
     stdout := [] |}.

(** The files that [main] writes. *)
Definition main_enriched_data : path :=
  [".."; "data"; "processed"; "ethiopia_fi_enriched.csv"].

Definition main_report : path :=
  [".."; "data"; "processed"; "task1_report.json"].

(** What [load_data] prints when it has read both tables. *)
Definition loaded_lines (table refs : DataFrame) : list printed :=
  [ Line "Loading datasets...";
    LineShape "Main dataset: " (df_shape table);
    LineShape "Reference codes: " (df_shape refs) ].

(** What [main] prints of the analysis, up to the number of indicators. *)
Definition summary_lines (table : DataFrame) (a : Analysis) : list printed :=
  [ Line (nl +:+ "Analyzing dataset...");
    Line (nl +:+ "Dataset Summary:");
    LineNat "- Total records: " (df_len table);
    LineCounts "- Record types: " (record_counts a);
    LineNat "- Unique indicators: " (unique_indicators_count a) ].

(** What [main] prints from the date range on. *)
Definition closing_lines (range : option string * option string)
    : list printed :=
  [ LineRange "- Observation date range: " range;
    Line (nl +:+ "Enrichment template created.");
    LinePath "Enriched data saved to: " main_enriched_data;
    LinePath (nl +:+ "Report generated: ") main_report;
    Line (nl +:+ "âœ… Task 1 processing completed!") ].

(** A table of observations without the [observation_date] column, and a
    world that holds it. *)
Definition undated_columns_table : DataFrame :=
  {| columns := ["record_type"; "indicator_code"];
     rows := [ [Some (SStr "observation"); Some (SStr "ACC_OWNERSHIP")];
               [Some (SStr "observation"); Some (SStr "USG_DIGITAL_PAYMENT")] ] |}.

Definition world_without_date_column : World :=
  {| files := {[ [".."] := Dir true;
                 [".."; "data"] := Dir true;
                 [".."; "data"; "raw"] := Dir true;
                 [".."; "data"; "raw"; "ethiopia_fi_unified_data.csv"] :=
                   File true true (Csv undated_columns_table);
                 [".."; "data"; "raw"; "reference_codes.csv"] :=
                   File true true (Csv reference_table);
                 [".."; "data"; "processed"] := Dir true ]};
     stdout := [] |}.

(** ** Texts *)

(** Every character of the text satisfies [f]. *)
Fixpoint string_forall (f : ascii → bool) (s : string) : bool :=
  match s with
  | EmptyString => true
  | String c s' => f c && string_forall f s'
  end.

(** The printable ASCII characters, from the space to the tilde. *)
Definition printable (c : ascii) : bool :=
  let n := Ascii.N_of_ascii c in (32 <=? n)%N && (n <=? 126)%N.

(** The characters of a text file in plain ASCII. *)
Definition plain (c : ascii) : bool :=
  printable c || bool_decide (c = "010"%char).

(** ** The dashboard utilities in examples *)

(** The number of cells of a column. *)
Definition column_length (c : Dashboard.column) : nat :=
  match c with
  | Dashboard.IntColumn l => length l
  | Dashboard.FloatColumn l => length l
  | Dashboard.ObjectColumn l => length l
  end.

(** A table of one year read from the account file. *)
Definition stored_account_forecast : Dashboard.frame :=
  [ ("Year", Dashboard.IntColumn [2028%Z]);
    ("Base Forecast (%)", Dashboard.FloatColumn [60%float]) ].

(** A disk that holds the account forecast and not the payment forecast. *)
Definition account_file_only (p : path) : result Dashboard.frame :=
  if decide (p = [".."; "data"; "processed"; Dashboard.account_forecast_file])
  then Ok stored_account_forecast
  else Raise (FileNotFoundError p).

(** ** Reading a JSON string back *)

(** The value of a hexadecimal digit. *)
Definition hex_value (c : ascii) : N :=
  let n := Ascii.N_of_ascii c in
  if decide (48 ≤ n ≤ 57)%N then (n - 48)%N
  else if decide (97 ≤ n ≤ 102)%N then (n - 87)%N
  else if decide (65 ≤ n ≤ 70)%N then (n - 55)%N
  else 0%N.

(** The character that a backslash followed by [c] stands for. *)
Definition unescape_char (c : ascii) : ascii :=
  match c with
  | "n" => "010" | "r" => "013" | "t" => "009" | "f" => "012" | "b" => "008"
  | _ => c
  end%char.

(** The string that the body of a JSON string stands for, the code points
    being below 256. *)
Fixpoint unescape (s : string) : string :=
  match s with
  | EmptyString => EmptyString
  | String "\" (String "u" (String _ (String _ (String h1 (String h2 rest))))) =>
      String (Ascii.ascii_of_N (16 * hex_value h1 + hex_value h2)) (unescape rest)
  | String "\" (String c rest) => String (unescape_char c) (unescape rest)
  | String c rest => String c (unescape rest)
  end.

(** The rows of [scenario_table] from the last to the first. *)
Definition reversed_scenario_table : DataFrame :=
  {| columns := columns scenario_table;
     rows := reverse (rows scenario_table) |}.

(** * Properties *)

Set Warnings "-clear-no-such-hyp".

(** ** Dicts *)

Section DictFacts.
Context {K V : Type} `{EqDecision K}.
Implicit Types (d : dict K V) (k : K) (v : V).

Lemma dict_set_fresh k v d : k ∉ d.*1 → dict_set k v d = d ++ [(k, v)].
Proof.
  induction d as [|[k' v'] d IH]; simpl; [done|].
  intros Hk. apply not_elem_of_cons in Hk as [Hne Hk].
  case_decide; [congruence|]. by rewrite IH.
Qed.

Lemma foldl_dict_set_fresh (items d : dict K V) :
  NoDup ((d ++ items).*1) →
  foldl (λ d kv, dict_set kv.1 kv.2 d) d items = d ++ items.
Proof.
  revert d. induction items as [|[k v] items IH]; intros d Hnd; simpl.
  - by rewrite app_nil_r.
  - rewrite dict_set_fresh.
    + rewrite IH; rewrite <- (assoc_L (++)); [done|]. exact Hnd.
    + rewrite fmap_app in Hnd. apply NoDup_app in Hnd as (_ & Hd & _).
      intros Hin. apply (Hd k Hin). simpl. left.
Qed.

(** A list of items with distinct keys is its own dict. *)
Lemma to_dict_NoDup (items : dict K V) : NoDup items.*1 → to_dict items = items.
Proof. intros Hnd. unfold to_dict. by rewrite foldl_dict_set_fresh. Qed.

Lemma elem_of_dict_set k v d kv :
  kv ∈ dict_set k v d → kv = (k, v) ∨ kv ∈ d.
Proof.
  induction d as [|[k' v'] d IH]; simpl.
  - intros ->%list_elem_of_singleton. by left.
  - case_decide.
    + intros [->|Hin]%elem_of_cons; [by left|]. right. by right.
    + intros [->|Hin]%elem_of_cons; [right; left|].
      destruct (IH Hin) as [->|?]; [by left|]. right. by right.
Qed.

(** The items of a dict are items it was built from. *)
Lemma elem_of_to_dict (items : dict K V) kv : kv ∈ to_dict items → kv ∈ items.
Proof.
  unfold to_dict.
  assert (Hgen : ∀ d, kv ∈ foldl (λ d kv, dict_set kv.1 kv.2 d) d items →
                      kv ∈ d ∨ kv ∈ items).
  { induction items as [|[k v] items IH]; intros d; simpl; [by left|].
    intros [Hin|Hin]%IH; [|right; by right].
    apply elem_of_dict_set in Hin as [->|Hin]; [right; left|by left]. }
  intros [Hin|Hin]%Hgen; [|done]. by apply elem_of_nil in Hin.
Qed.

Lemma dict_get_Some k v d : dict_get k d = Some v → (k, v) ∈ d.
Proof.
  induction d as [|[k' v'] d IH]; simpl; [done|].
  case_decide; [intros [= ->]; subst; left|]. intros ?%IH. by right.
Qed.

Lemma dict_get_None k d : k ∉ d.*1 → dict_get k d = None.
Proof.
  induction d as [|[k' v'] d IH]; simpl; [done|].
  intros [Hne Hk]%not_elem_of_cons. case_decide; [congruence|]. by apply IH.
Qed.

Lemma dict_get_NoDup k v d : NoDup d.*1 → (k, v) ∈ d → dict_get k d = Some v.
Proof.
  induction d as [|[k' v'] d IH]; simpl.
  - by intros _ ?%elem_of_nil.
  - intros [Hk' Hnd]%NoDup_cons [[= -> ->]|Hin]%elem_of_cons.
    + by case_decide.
    + case_decide; [|by apply IH]. subst k'. exfalso. apply Hk'.
      apply list_elem_of_fmap. by exists (k, v).
Qed.
End DictFacts.

(** ** Series *)

Lemma elem_of_unique_from seen l x :
  x ∈ unique_from seen l ↔ x ∈ l ∧ x ∉ seen.
Proof.
  revert seen. induction l as [|y l IH]; intros seen; simpl.
  - split; [by intros ?%elem_of_nil|by intros [?%elem_of_nil _]].
  - case_decide as Hy.
    + rewrite IH, elem_of_cons. naive_solver.
    + rewrite elem_of_cons, IH, not_elem_of_cons, elem_of_cons.
      destruct (decide (x = y)); naive_solver.
Qed.

Lemma NoDup_unique_from seen l : NoDup (unique_from seen l).
Proof.
  revert seen. induction l as [|y l IH]; intros seen; simpl; [constructor|].
  case_decide; [done|]. constructor; [|done].
  rewrite elem_of_unique_from, not_elem_of_cons. naive_solver.
Qed.

Lemma elem_of_unique l x : x ∈ unique l ↔ x ∈ l.
Proof.
  unfold unique. rewrite elem_of_unique_from. split; [naive_solver|].
  intros ?. split; [done|]. apply not_elem_of_nil.
Qed.

Lemma NoDup_unique l : NoDup (unique l).
Proof. apply NoDup_unique_from. Qed.

Lemma occurrences_cons v x l :
  occurrences v (x :: l) = ((if decide (x = v) then 1 else 0) + occurrences v l)%nat.
Proof. unfold occurrences. rewrite filter_cons. by case_decide. Qed.

Lemma occurrences_pos v l : (0 < occurrences v l)%nat ↔ v ∈ l.
Proof.
  induction l as [|x l IH].
  - split; [by inversion 1|by intros ?%elem_of_nil].
  - rewrite occurrences_cons, elem_of_cons. case_decide; [|naive_solver].
    split; [by left|lia].
Qed.

Lemma sum_list_with_plus {A} (f g : A → nat) (l : list A) :
  sum_list_with (λ x, f x + g x)%nat l = (sum_list_with f l + sum_list_with g l)%nat.
Proof. induction l as [|x l IH]; simpl; [done|]. rewrite IH. lia. Qed.

Lemma sum_list_with_pointwise {A} (f g : A → nat) (l : list A) :
  (∀ x, f x = g x) → sum_list_with f l = sum_list_with g l.
Proof. intros Hfg. induction l as [|x l IH]; simpl; [done|]. by rewrite Hfg, IH. Qed.

(** Over distinct values, exactly one of them is [x]. *)
Lemma sum_indicator (x : scalar) (u : list scalar) :
  NoDup u →
  sum_list_with (λ v, if decide (x = v) then 1%nat else 0%nat) u
  = if decide (x ∈ u) then 1%nat else 0%nat.
Proof.
  induction 1 as [|y u Hy Hnd IH]; simpl; [done|].
  rewrite IH. destruct (decide (x = y)) as [->|Hne].
  - rewrite (decide_False (P := y ∈ u)) by done.
    rewrite decide_True by left. done.
  - destruct (decide (x ∈ u)) as [Hin|Hin].
    + rewrite decide_True by (by right). done.
    + rewrite decide_False; [done|]. by intros [?|?]%elem_of_cons.
Qed.

(** Counting every distinct value counts every element once. *)
Lemma sum_occurrences (u l : list scalar) :
  NoDup u → (∀ x, x ∈ l → x ∈ u) →
  sum_list_with (λ v, occurrences v l) u = length l.
Proof.
  intros Hnd. induction l as [|x l IH]; intros Hsub.
  - unfold occurrences. simpl. clear. induction u; simpl; done.
  - rewrite (sum_list_with_pointwise _ (λ v, (if decide (x = v) then 1 else 0)
                                      + occurrences v l)%nat)
      by (intros; apply occurrences_cons).
    rewrite sum_list_with_plus, sum_indicator by done.
    rewrite IH by (intros; apply Hsub; by right).
    rewrite decide_True by (apply Hsub; left). done.
Qed.

Lemma insert_desc_Permutation x l : insert_desc x l ≡ₚ x :: l.
Proof.
  induction l as [|y l IH]; simpl; [done|].
  case_decide; [|done]. rewrite IH. apply Permutation_swap.
Qed.

Lemma sort_values_desc_Permutation l : sort_values_desc l ≡ₚ l.
Proof.
  induction l as [|x l IH]; simpl; [done|].
  by rewrite insert_desc_Permutation, IH.
Qed.

Lemma value_counts_keys s : (value_counts s).*1 ≡ₚ unique (dropna s).
Proof.
  unfold value_counts. rewrite sort_values_desc_Permutation.
  rewrite <- list_fmap_compose. by rewrite list_fmap_id.
Qed.

Lemma NoDup_value_counts s : NoDup (value_counts s).*1.
Proof. rewrite value_counts_keys. apply NoDup_unique. Qed.

Lemma elem_of_value_counts s v n :
  (v, n) ∈ value_counts s ↔ v ∈ dropna s ∧ n = occurrences v (dropna s).
Proof.
  unfold value_counts. rewrite sort_values_desc_Permutation.
  rewrite list_elem_of_fmap. setoid_rewrite elem_of_unique. naive_solver.
Qed.

(** The counts add up to the number of values that are not missing. *)
Lemma value_counts_sum s :
  sum_list (dict_values (value_counts s)) = length (dropna s).
Proof.
  unfold dict_values, value_counts. rewrite sort_values_desc_Permutation.
  rewrite <- list_fmap_compose.
  rewrite <- (sum_occurrences (unique (dropna s)) (dropna s)).
  - induction (unique (dropna s)); simpl; [done|]. by f_equal.
  - apply NoDup_unique.
  - intros x. by rewrite elem_of_unique.
Qed.

Lemma dropna_isnull_length (s : Series) :
  (length (dropna s) + isnull_sum s = length s)%nat.
Proof.
  unfold dropna, isnull_sum. induction s as [|[v|] s IH]; [done|..].
  - rewrite filter_cons_False by done. csimpl. lia.
  - rewrite filter_cons_True by done. csimpl. lia.
Qed.

(** ** Frames *)

Lemma column_index_Some name cols i :
  column_index name cols = Some i →
  cols !! i = Some name ∧ name ∉ take i cols.
Proof.
  revert i. induction cols as [|c cols IH]; intros i; simpl; [done|].
  case_decide as Hc.
  - intros [= <-]. subst. split; [done|]. apply not_elem_of_nil.
  - destruct (column_index name cols) as [j|]; [|done].
    intros [= <-]. destruct (IH j eq_refl) as [Hl Hn]. split; [done|].
    simpl. apply not_elem_of_cons. split; [congruence|done].
Qed.

Lemma column_index_None name cols :
  column_index name cols = None ↔ name ∉ cols.
Proof.
  induction cols as [|c cols IH]; simpl.
  - split; [intros _; apply not_elem_of_nil|done].
  - rewrite not_elem_of_cons. case_decide as Hc.
    + split; [done|]. intros [? _]. congruence.
    + destruct (column_index name cols); simpl.
      * split; [done|]. intros [_ Hn]. by apply IH in Hn.
      * split; [|done]. intros _. split; [congruence|]. by apply IH.
Qed.

Lemma column_index_elem_of name cols :
  name ∈ cols → ∃ i, column_index name cols = Some i.
Proof.
  intros Hin. destruct (column_index name cols) as [i|] eqn:E; [by exists i|].
  by apply column_index_None in E.
Qed.

Lemma getitem_Ok df name s :
  getitem df name = Ok s ↔
  ∃ i, column_index name (columns df) = Some i ∧ s = column_at i df.
Proof.
  unfold getitem. destruct (column_index name (columns df)) as [i|].
  - split; [intros [= <-]; by exists i|]. by intros (j & [= <-] & ->).
  - split; [done|]. by intros (j & [=] & _).
Qed.

Lemma getitem_Raise df name e :
  getitem df name = Raise e → e = KeyError name ∧ name ∉ columns df.
Proof.
  unfold getitem. destruct (column_index name (columns df)) as [i|] eqn:E; [done|].
  intros [= <-]. split; [done|]. by apply column_index_None.
Qed.

(** Selecting by the mask of [column == v] keeps the rows whose cell in that
    column is [v]. *)
Lemma boolean_index_series_eq df i v :
  rows (boolean_index df (series_eq (column_at i df) v))
  = filter (λ r, row_cell i r = Some v) (rows df).
Proof.
  unfold boolean_index, series_eq, column_at. simpl.
  induction (rows df) as [|r rs IH]; [done|].
  rewrite !fmap_cons. simpl. rewrite !filter_cons. simpl.
  destruct (decide (row_cell i r = Some v)) as [Hv|Hv].
  - rewrite bool_decide_eq_true_2 by done. rewrite decide_True by done.
    rewrite fmap_cons. simpl. by rewrite IH.
  - rewrite bool_decide_eq_false_2 by done. rewrite decide_False by done. done.
Qed.

Lemma omap_id_fmap {A B} (f : A → option B) (l : list A) :
  omap id (f <$> l) = omap f l.
Proof.
  induction l as [|x l IH]; csimpl; [done|]. rewrite IH. by destruct (f x).
Qed.

Lemma isna_all_true {A} (s : list (option A)) :
  isna_all s = true ↔ omap id s = [].
Proof.
  unfold isna_all. induction s as [|[x|] s IH]; csimpl; [done|..].
  - done.
  - done.
Qed.

Lemma foldl_min_spec t ts :
  foldl Z.min t ts ∈ t :: ts ∧ ∀ x, x ∈ t :: ts → (foldl Z.min t ts ≤ x)%Z.
Proof.
  revert t. induction ts as [|y ts IH]; intros t; simpl.
  - split; [left|]. intros x ->%list_elem_of_singleton. lia.
  - destruct (IH (Z.min t y)) as [Hin Hle]. split.
    + apply elem_of_cons in Hin as [->|Hin]; [|right; by right].
      destruct (Z.min_spec t y) as [[_ ->]|[_ ->]]; [left|right; left].
    + intros x Hx. assert (foldl Z.min (Z.min t y) ts ≤ Z.min t y)%Z
        by (apply Hle; left).
      apply elem_of_cons in Hx as [->|[->|Hx]%elem_of_cons]; [lia|lia|].
      apply Hle. by right.
Qed.

Lemma foldl_max_spec t ts :
  foldl Z.max t ts ∈ t :: ts ∧ ∀ x, x ∈ t :: ts → (x ≤ foldl Z.max t ts)%Z.
Proof.
  revert t. induction ts as [|y ts IH]; intros t; simpl.
  - split; [left|]. intros x ->%list_elem_of_singleton. lia.
  - destruct (IH (Z.max t y)) as [Hin Hle]. split.
    + apply elem_of_cons in Hin as [->|Hin]; [|right; by right].
      destruct (Z.max_spec t y) as [[_ ->]|[_ ->]]; [right; left|left].
    + intros x Hx. assert (Z.max t y ≤ foldl Z.max (Z.max t y) ts)%Z
        by (apply Hle; left).
      apply elem_of_cons in Hx as [->|[->|Hx]%elem_of_cons]; [lia|lia|].
      apply Hle. by right.
Qed.

Lemma series_min_Some s m :
  series_min s = Some m →
  m ∈ omap id s ∧ ∀ t, t ∈ omap id s → (m ≤ t)%Z.
Proof.
  unfold series_min. destruct (omap id s) as [|t ts]; [done|].
  intros [= <-]. apply foldl_min_spec.
Qed.

Lemma series_max_Some s m :
  series_max s = Some m →
  m ∈ omap id s ∧ ∀ t, t ∈ omap id s → (t ≤ m)%Z.
Proof.
  unfold series_max. destruct (omap id s) as [|t ts]; [done|].
  intros [= <-]. apply foldl_max_spec.
Qed.

Lemma cell_of_index df name i r :
  column_index name (columns df) = Some i → cell_of df name r = row_cell i r.
Proof. unfold cell_of. by intros ->. Qed.

Lemma omap_pointwise {A B} (f g : A → option B) (l : list A) :
  (∀ x, f x = g x) → omap f l = omap g l.
Proof. intros Hfg. induction l as [|x l IH]; csimpl; [done|]. by rewrite Hfg, IH. Qed.

Lemma filter_fmap_length {A B} (f : A → B) (P : B → Prop)
    `{!∀ y, Decision (P y)} (l : list A) :
  length (filter P (f <$> l)) = length (filter (λ x, P (f x)) l).
Proof.
  induction l as [|x l IH]; [done|]. rewrite fmap_cons, !filter_cons.
  case_decide; simpl; by rewrite IH.
Qed.

(** The rows selected by the mask are the observation rows. *)
Lemma observation_rows_spec df i :
  column_index "record_type" (columns df) = Some i →
  rows (boolean_index df (series_eq (column_at i df) (SStr "observation")))
  = observations df.
Proof.
  intros Hi. rewrite boolean_index_series_eq. unfold observations.
  apply list_filter_iff. intros r. unfold is_observation.
  by rewrite (cell_of_index _ _ i).
Qed.

Lemma record_type_column_spec df i :
  column_index "record_type" (columns df) = Some i →
  dropna (column_at i df) = record_types df ∧
  isnull_sum (column_at i df) = null_record_types df.
Proof.
  intros Hi. unfold dropna, column_at, record_types, null_record_types, isnull_sum.
  split.
  - rewrite omap_id_fmap. apply omap_pointwise. intros r.
    by rewrite (cell_of_index _ _ i).
  - rewrite filter_fmap_length. f_equal. apply list_filter_iff. intros r.
    by rewrite (cell_of_index _ _ i).
Qed.

(** [unique] keeps the first occurrence of every value: after the values
    [pre], known through the table [seen], a value is kept when it occurs
    nowhere before its position. *)
Lemma unique_from_prefix (pre seen l : list scalar) :
  (∀ y, y ∈ seen ↔ y ∈ pre) →
  unique_from seen l
  = (filter (λ ix, ix.2 ∉ take ix.1 (pre ++ l))
            (imap (λ i x, (length pre + i, x)) l)).*2.
Proof.
  revert pre seen. induction l as [|x l IH]; intros pre seen Hseen; [done|].
  rewrite imap_cons, filter_cons. simpl.
  rewrite Nat.add_0_r, take_app_length.
  assert (Hrest : ∀ seen', (∀ y, y ∈ seen' ↔ y ∈ pre ++ [x]) →
    unique_from seen' l
    = (filter (λ ix, ix.2 ∉ take ix.1 (pre ++ x :: l))
              (imap ((λ i y, (length pre + i, y)) ∘ S) l)).*2).
  { intros seen' Hseen'. rewrite (IH (pre ++ [x]) seen' Hseen').
    rewrite <- (assoc_L (++)). simpl. do 2 f_equal.
    apply imap_ext. intros i y _. simpl. rewrite length_app. simpl.
    f_equal. lia. }
  destruct (decide (x ∈ seen)) as [Hx|Hx].
  - rewrite decide_False by (rewrite <- Hseen; tauto).
    apply Hrest. intros y. rewrite elem_of_app, list_elem_of_singleton, Hseen.
    split; [tauto|]. intros [?| ->]; [done|]. by apply Hseen.
  - rewrite decide_True by (by rewrite <- Hseen).
    rewrite fmap_cons. simpl. f_equal.
    apply Hrest. intros y. rewrite elem_of_cons, elem_of_app, list_elem_of_singleton, Hseen.
    tauto.
Qed.

Lemma unique_first_occurrences l : unique l = first_occurrences l.
Proof.
  unfold unique, first_occurrences.
  by rewrite (unique_from_prefix [] [] l).
Qed.

(** There are as many distinct values as the set of the values has
    elements. *)
Lemma length_unique l : length (unique l) = size (list_to_set l : gset scalar).
Proof.
  rewrite <- (size_list_to_set (C := gset scalar) (unique l)) by apply NoDup_unique.
  f_equal. apply set_eq. intros x.
  by rewrite !elem_of_list_to_set, elem_of_unique.
Qed.

(** ** The analysis *)

Section AnalyzerFacts.
Variable to_datetime : Series → scalar → option Timestamp.
Variable strftime_ymd : Timestamp → string.

Abbreviation analyze_dataset := (analyze_dataset to_datetime strftime_ymd).
Abbreviation date_range := (date_range to_datetime strftime_ymd).

(** The date range is always computed: [strftime] is only reached with a
    timestamp. *)
Lemma date_range_Ok obs :
  date_range obs
  = Ok match column_index "observation_date" (columns obs) with
       | None => None
       | Some k =>
           let dates := to_datetime_coerce to_datetime (column_at k obs) in
           Some (strftime_ymd <$> series_min dates,
                 strftime_ymd <$> series_max dates)
       end.
Proof.
  unfold date_range, has_column, getitem.
  destruct (column_index "observation_date" (columns obs)) as [k|] eqn:Hk.
  - apply column_index_Some in Hk as Hk'. destruct Hk' as [Hk' _].
    rewrite bool_decide_eq_true_2 by (by eapply list_elem_of_lookup_2).
    simpl. set (dates := to_datetime_coerce to_datetime (column_at k obs)).
    destruct (isna_all dates) eqn:Hna; simpl.
    + apply isna_all_true in Hna. unfold series_min, series_max.
      by rewrite Hna.
    + unfold series_min, series_max.
      destruct (omap id dates) as [|t ts] eqn:Hd; [|done].
      apply isna_all_true in Hd. congruence.
  - apply column_index_None in Hk. by rewrite bool_decide_eq_false_2.
Qed.

(** What a successful analysis is made of. *)
Lemma analyze_dataset_Ok df a :
  analyze_dataset df = Ok a →
  ∃ i j obs,
    column_index "record_type" (columns df) = Some i ∧
    column_index "indicator_code" (columns df) = Some j ∧
    columns obs = columns df ∧ rows obs = observations df ∧
    record_counts a = value_counts (column_at i df) ∧
    date_range obs = Ok (obs_date_range a) ∧
    unique_indicators_count a = length (unique (observation_indicator_codes df)) ∧
    sample_indicators a = take 5 (unique (observation_indicator_codes df)) ∧
    missing_values a = to_dict (filter (λ kv, 0 < kv.2)%nat (df_isnull_sum df)).
Proof.
  unfold analyze_dataset, observation_rows.
  destruct (getitem df "record_type") as [rt|e] eqn:Hrt; simpl; [|done].
  apply getitem_Ok in Hrt as (i & Hi & ->).
  set (obs := boolean_index df _).
  rewrite date_range_Ok. simpl. unfold getitem.
  change (columns obs) with (columns df).
  destruct (column_index "indicator_code" (columns df)) as [j|] eqn:Hj;
    simpl; [|done].
  intros [= <-]. exists i, j, obs. simpl.
  assert (Hrows : rows obs = observations df) by by apply observation_rows_spec.
  assert (Hcodes : dropna (column_at j obs) = observation_indicator_codes df).
  { unfold dropna, column_at, observation_indicator_codes.
    rewrite Hrows, omap_id_fmap. apply omap_pointwise. intros r.
    by rewrite (cell_of_index _ _ j). }
  rewrite Hcodes. rewrite to_dict_NoDup by apply NoDup_value_counts.
  by rewrite date_range_Ok.
Qed.

(** The analysis succeeds on every table that has the two columns it
    reads without a test. *)
Lemma analyze_dataset_total df :
  "record_type" ∈ columns df → "indicator_code" ∈ columns df →
  ∃ a, analyze_dataset df = Ok a.
Proof.
  intros [i Hi]%column_index_elem_of [j Hj]%column_index_elem_of.
  unfold analyze_dataset, observation_rows, getitem. rewrite Hi. simpl.
  rewrite date_range_Ok. simpl. rewrite Hj. simpl.
  by eexists.
Qed.

(** The only exceptions are those of the two columns. *)
Lemma analyze_dataset_Raise df e :
  analyze_dataset df = Raise e →
  (e = KeyError "record_type" ∧ "record_type" ∉ columns df)
  ∨ (e = KeyError "indicator_code" ∧ "indicator_code" ∉ columns df).
Proof.
  unfold analyze_dataset, observation_rows, getitem.
  destruct (column_index "record_type" (columns df)) as [i|] eqn:Hi; simpl.
  - rewrite date_range_Ok. simpl.
    destruct (column_index "indicator_code" (columns df)) as [j|] eqn:Hj;
      simpl; [done|].
    intros [= <-]. right. split; [done|]. by apply column_index_None.
  - intros [= <-]. left. split; [done|]. by apply column_index_None.
Qed.

(** C1 (as amended): the counts of [record_counts] add up to the number of
    rows whose [record_type] is not missing, so that together with the rows
    without a [record_type] they make up the table; and every value that
    occurs as a [record_type], expected or not, is a key whose count is the
    number of rows with that literal value, no other value being a key. *)
Theorem record_counts_sum df a :
  analyze_dataset df = Ok a →
  (sum_list (dict_values (record_counts a)) + null_record_types df
     = df_len df)%nat
  ∧ (null_record_types df = 0%nat →
     sum_list (dict_values (record_counts a)) = df_len df)
  ∧ ∀ v, dict_get v (record_counts a)
         = if decide (v ∈ record_types df)
           then Some (occurrences v (record_types df)) else None.
Proof.
  intros (i & j & obs & Hi & _ & _ & _ & Hc & _)%analyze_dataset_Ok.
  destruct (record_type_column_spec df i Hi) as [Hvals Hnull].
  assert (Hsum : (sum_list (dict_values (record_counts a))
                  + null_record_types df = df_len df)%nat).
  { rewrite Hc, value_counts_sum, <- Hnull, dropna_isnull_length.
    unfold column_at, df_len. by rewrite length_fmap. }
  split; [done|]. split; [lia|].
  intros v. rewrite Hc. case_decide as Hv.
  - apply dict_get_NoDup; [apply NoDup_value_counts|].
    apply elem_of_value_counts. by rewrite Hvals.
  - apply dict_get_None. rewrite value_counts_keys, elem_of_unique.
    by rewrite Hvals.
Qed.
Lemma valid_dates_spec df obs k :
  columns obs = columns df → rows obs = observations df →
  column_index "observation_date" (columns obs) = Some k →
  omap id (to_datetime_coerce to_datetime (column_at k obs))
  = valid_observation_dates to_datetime df.
Proof.
  intros Hcols Hrows Hk.
  assert (Hcol : column_at k obs = observation_dates df).
  { unfold column_at, observation_dates. rewrite Hrows.
    apply list_fmap_ext. intros _ r _.
    by rewrite (cell_of_index df _ k) by congruence. }
  unfold to_datetime_coerce, valid_observation_dates.
  by rewrite Hcol, omap_id_fmap.
Qed.

(** Without the [observation_date] column no date is read. *)
Lemma valid_dates_no_column df :
  column_index "observation_date" (columns df) = None →
  valid_observation_dates to_datetime df = [].
Proof.
  intros Hk. unfold valid_observation_dates, observation_dates, cell_of.
  rewrite Hk.
  generalize (to_datetime ((λ _ : list cell, None) <$> observations df)).
  intros f. by induction (observations df) as [|r l IH].
Qed.

(** C4: the dates that cannot be read never end the analysis, whose only
    exceptions are the key errors of a missing [record_type] or
    [indicator_code] column; when no observation row has a readable date
    the range is absent (the key is not set, or both ends are null); and
    as soon as an observation row has a readable date the range is
    reported, and it is taken over the readable dates only: its ends are
    the least and the greatest of them, written as days. *)
Theorem date_range_valid_dates_only df :
  (∀ e, analyze_dataset df = Raise e →
        e = KeyError "record_type" ∨ e = KeyError "indicator_code")
  ∧ ("record_type" ∈ columns df → "indicator_code" ∈ columns df →
     ∃ a, analyze_dataset df = Ok a)
  ∧ ∀ a, analyze_dataset df = Ok a →
      (valid_observation_dates to_datetime df = [] →
       date_range_absent (obs_date_range a))
      ∧ (valid_observation_dates to_datetime df ≠ [] →
         ∃ tmin tmax,
           obs_date_range a
           = Some (Some (strftime_ymd tmin), Some (strftime_ymd tmax))
           ∧ tmin ∈ valid_observation_dates to_datetime df
           ∧ tmax ∈ valid_observation_dates to_datetime df
           ∧ ∀ t, t ∈ valid_observation_dates to_datetime df →
                  (tmin ≤ t ≤ tmax)%Z).
Proof.
  split; [|split].
  - intros e [[-> _]|[-> _]]%analyze_dataset_Raise; [by left|by right].
  - apply analyze_dataset_total.
  - intros a (i & j & obs & _ & _ & Hcols & Hrows & _ & Hr & _)%analyze_dataset_Ok.
    rewrite date_range_Ok in Hr. injection Hr as Hr.
    destruct (column_index "observation_date" (columns obs)) as [k|] eqn:Hk.
    + pose proof (valid_dates_spec df obs k Hcols Hrows Hk) as Hvalid.
      simpl in Hr. unfold series_min, series_max in Hr. rewrite Hvalid in Hr.
      destruct (valid_observation_dates to_datetime df) as [|t ts] eqn:Hv.
      * split; [intros _; right; by rewrite <- Hr|]. by intros ?.
      * split; [done|]. intros _.
        destruct (foldl_min_spec t ts) as [Hmin1 Hmin2].
        destruct (foldl_max_spec t ts) as [Hmax1 Hmax2].
        exists (foldl Z.min t ts), (foldl Z.max t ts).
        split; [by rewrite <- Hr|]. repeat split; auto.
    + rewrite Hcols in Hk. split; [intros _; left; by rewrite <- Hr|].
      intros Hv. by destruct Hv; apply valid_dates_no_column.
Qed.

(** C6: the number of indicators is the cardinality of the set of the
    indicator codes that are not missing in the observation rows, and the
    sample is made of the first five of these distinct codes in encounter
    order. *)
Theorem unique_indicators_spec df a :
  analyze_dataset df = Ok a →
  unique_indicators_count a
  = size (list_to_set (observation_indicator_codes df) : gset scalar)
  ∧ sample_indicators a
    = take 5 (first_occurrences (observation_indicator_codes df)).
Proof.
  intros (i & j & obs & _ & _ & _ & _ & _ & _ & Hn & Hs & _)%analyze_dataset_Ok.
  by rewrite Hn, Hs, length_unique, unique_first_occurrences.
Qed.

(** C8: every column reported in [missing_values] is a column of the
    table, reported with the number of its missing cells, which is
    strictly positive; no column is reported with a count of zero. *)
Theorem missing_values_positive df a :
  analyze_dataset df = Ok a →
  (∀ c n, (c, n) ∈ missing_values a →
          (0 < n)%nat
          ∧ ∃ k, columns df !! k = Some c ∧ n = isnull_sum (column_at k df))
  ∧ ∀ c, dict_get c (missing_values a) ≠ Some 0%nat.
Proof.
  intros (i & j & obs & _ & _ & _ & _ & _ & _ & _ & _ & Hm)%analyze_dataset_Ok.
  assert (Hpos : ∀ c n, (c, n) ∈ missing_values a →
            (0 < n)%nat
            ∧ ∃ k, columns df !! k = Some c ∧ n = isnull_sum (column_at k df)).
  { intros c n Hin. rewrite Hm in Hin.
    apply elem_of_to_dict, list_elem_of_filter in Hin as [Hn Hin].
    split; [done|]. unfold df_isnull_sum in Hin.
    apply elem_of_lookup_imap in Hin as (k & name & [= -> ->] & Hk).
    by exists k. }
  split; [done|]. intros c Hc%dict_get_Some. apply Hpos in Hc as [? _]. lia.
Qed.

(** The analysis of a table without rows that has the two columns. *)
Lemma analyze_dataset_no_rows cols :
  "record_type" ∈ cols → "indicator_code" ∈ cols →
  analyze_dataset {| columns := cols; rows := [] |}
  = Ok {| record_counts := [];
          obs_date_range :=
            if has_column "observation_date" {| columns := cols; rows := [] |}
            then Some (None, None) else None;
          unique_indicators_count := 0;
          sample_indicators := [];
          missing_values := [] |}.
Proof.
  intros [i Hi]%column_index_elem_of [j Hj]%column_index_elem_of.
  unfold analyze_dataset, observation_rows, getitem. simpl. rewrite Hi. simpl.
  rewrite date_range_Ok. simpl. rewrite Hj. simpl.
  replace (filter _ (df_isnull_sum _)) with (@nil (string * nat)).
  { unfold has_column. simpl.
    destruct (column_index "observation_date" cols) as [k|] eqn:Hk.
    - apply column_index_Some in Hk as [Hk _].
      by rewrite bool_decide_eq_true_2 by (by eapply list_elem_of_lookup_2).
    - apply column_index_None in Hk. by rewrite bool_decide_eq_false_2. }
  unfold df_isnull_sum, column_at, isnull_sum. simpl.
  change (imap _ cols) with (imap (const (λ name : string, (name, 0%nat))) cols).
  rewrite imap_const. clear. induction cols as [|c cs IH]; [done|].
  rewrite fmap_cons, filter_cons_False by (simpl; lia). done.
Qed.

(** C2: on the table without rows that has the [record_type] column and no
    other, the analysis does not return: it raises the key error of the
    [indicator_code] column. *)
Theorem analyze_header_only_raises :
  analyze_dataset header_only_table = Raise (KeyError "indicator_code").
Proof. reflexivity. Qed.
End AnalyzerFacts.

(** *** The analysis on the example tables *)

Example analyze_scenario :
  Sample.analyze_dataset scenario_table = Ok scenario_analysis.
Proof. reflexivity. Qed.

Example analyze_undated :
  Sample.analyze_dataset undated_table = Ok undated_analysis.
Proof. reflexivity. Qed.

(** C1 (as stated) fails: the one row of [null_type_table] has no
    [record_type], it is counted under no key, and the counts add up to 0. *)
Lemma record_counts_sum_not_len :
  ∃ a, Sample.analyze_dataset null_type_table = Ok a
       ∧ sum_list (dict_values (record_counts a)) = 0%nat
       ∧ df_len null_type_table = 1%nat.
Proof. eexists. split; [reflexivity|]. split; reflexivity. Qed.

Lemma record_counts_sum_witness :
  Sample.analyze_dataset scenario_table = Ok scenario_analysis
  ∧ null_record_types scenario_table = 0%nat
  ∧ sum_list (dict_values (record_counts scenario_analysis))
    = df_len scenario_table.
Proof.
  split; [reflexivity|]. split; [reflexivity|].
  apply (record_counts_sum Sample.to_datetime Sample.strftime_ymd
           scenario_table scenario_analysis eq_refl).
  reflexivity.
Defined.

Lemma date_range_valid_dates_only_witness :
  (valid_observation_dates Sample.to_datetime undated_table = []
   ∧ Sample.analyze_dataset undated_table = Ok undated_analysis
   ∧ date_range_absent (obs_date_range undated_analysis))
  ∧ (valid_observation_dates Sample.to_datetime scenario_table ≠ []
     ∧ Sample.analyze_dataset scenario_table = Ok scenario_analysis
     ∧ ∃ tmin tmax,
         obs_date_range scenario_analysis
         = Some (Some (Sample.strftime_ymd tmin), Some (Sample.strftime_ymd tmax))
         ∧ ∀ t, t ∈ valid_observation_dates Sample.to_datetime scenario_table →
                (tmin ≤ t ≤ tmax)%Z).
Proof.
  split.
  - split; [reflexivity|]. split; [reflexivity|].
    apply (date_range_valid_dates_only Sample.to_datetime Sample.strftime_ymd
             undated_table); reflexivity.
  - assert (Hdates :
      valid_observation_dates Sample.to_datetime scenario_table ≠ [])
      by (vm_compute; discriminate).
    split; [exact Hdates|]. split; [reflexivity|].
    destruct (date_range_valid_dates_only Sample.to_datetime
                Sample.strftime_ymd scenario_table) as (_ & _ & Hrange).
    destruct (Hrange scenario_analysis eq_refl) as [_ Hreported].
    destruct (Hreported Hdates) as (tmin & tmax & Heq & _ & _ & Hbounds).
    by exists tmin, tmax.
Defined.

Lemma unique_indicators_spec_witness :
  Sample.analyze_dataset scenario_table = Ok scenario_analysis
  ∧ unique_indicators_count scenario_analysis
    = size (list_to_set (observation_indicator_codes scenario_table)
              : gset scalar).
Proof.
  split; [reflexivity|].
  apply (unique_indicators_spec Sample.to_datetime Sample.strftime_ymd
           scenario_table scenario_analysis eq_refl).
Defined.

Lemma missing_values_positive_witness :
  Sample.analyze_dataset scenario_table = Ok scenario_analysis
  ∧ ("observation_date", 1%nat) ∈ missing_values scenario_analysis
  ∧ (0 < 1)%nat.
Proof.
  split; [reflexivity|].
  assert (Hin : ("observation_date", 1%nat) ∈ missing_values scenario_analysis)
    by (right; left).
  split; [exact Hin|].
  apply (proj1 (missing_values_positive Sample.to_datetime Sample.strftime_ymd
                  scenario_table scenario_analysis eq_refl)
           "observation_date" 1%nat Hin).
Defined.

(** ** The file system *)

Lemma parent_snoc (p : path) (x : string) : parent (p ++ [x]) = p.
Proof.
  unfold parent. rewrite length_app. simpl.
  replace (length p + 1 - 1)%nat with (length p) by lia.
  by rewrite take_app_length.
Qed.

Lemma dirs_added_refl p fs : dirs_added p fs fs.
Proof. intros q. by left. Qed.

Lemma dirs_added_trans p fs1 fs2 fs3 :
  dirs_added p fs1 fs2 → dirs_added p fs2 fs3 → dirs_added p fs1 fs3.
Proof.
  intros H12 H23 q. destruct (H12 q) as [E12|(Hn & Hd & Hk)];
    destruct (H23 q) as [E23|(Hn' & Hd' & Hk')].
  - left. congruence.
  - right. split; [congruence|done].
  - right. split; [done|]. split; [congruence|done].
  - congruence.
Qed.

Lemma os_mkdir_spec p fs r fs' :
  os_mkdir p fs = (r, fs') →
  (r = Ok () ∧ fs !! p = None ∧ fs' = <[p := Dir true]> fs)
  ∨ (∃ e, r = Raise e ∧ fs' = fs).
Proof.
  unfold os_mkdir. destruct (fs !! p) as [nd|] eqn:Hp.
  - intros [= <- <-]. right. by eexists.
  - destruct (fs !! parent p) as [[[]|]|].
    + intros [= <- <-]. by left.
    + intros [= <- <-]. right. by eexists.
    + intros [= <- <-]. right. by eexists.
    + intros [= <- <-]. right. by eexists.
Qed.

Lemma os_mkdir_dirs_added k p fs r fs' :
  os_mkdir (take k p) fs = (r, fs') →
  dirs_added p fs fs' ∧ (r = Ok () → is_dir (take k p) fs' = true).
Proof.
  intros [(-> & Hp & ->)|(e & -> & ->)]%os_mkdir_spec.
  - split.
    + intros q. destruct (decide (q = take k p)) as [->|Hq].
      * right. rewrite lookup_insert_eq. eauto.
      * left. by rewrite lookup_insert_ne.
    + intros _. unfold is_dir. by rewrite lookup_insert_eq.
  - split; [apply dirs_added_refl|done].
Qed.

Local Ltac mkdir_case :=
  intros [= <- <-]; split; [done|]; first [done|auto].

Lemma mkdir_exist_ok_dirs_added k p fs r fs' :
  mkdir_exist_ok (take k p) fs = (r, fs') →
  dirs_added p fs fs' ∧ (r = Ok () → is_dir (take k p) fs' = true).
Proof.
  unfold mkdir_exist_ok.
  destruct (os_mkdir (take k p) fs) as [r0 fs0] eqn:Hmk.
  apply os_mkdir_dirs_added in Hmk as [Hadd Hdir].
  destruct r0 as [[]|e].
  - mkdir_case.
  - destruct (is_dir (take k p) fs0) eqn:Hd; destruct e;
      mkdir_case.
Qed.

Lemma mkdir_parents_upto_dirs_added n p fs r fs' :
  mkdir_parents_upto n p fs = (r, fs') →
  dirs_added p fs fs' ∧ (r = Ok () → is_dir (take n p) fs' = true).
Proof.
  revert fs r fs'. induction n as [|n IH]; intros fs r fs'.
  - cbn [mkdir_parents_upto].
    destruct (os_mkdir (take 0 p) fs) as [r0 fs0] eqn:Hmk.
    apply os_mkdir_dirs_added in Hmk as [Hadd Hdir].
    destruct r0 as [[]|e].
    + mkdir_case.
    + destruct (is_dir (take 0 p) fs0) eqn:Hd; destruct e; mkdir_case.
  - cbn [mkdir_parents_upto].
    destruct (os_mkdir (take (S n) p) fs) as [r0 fs0] eqn:Hmk.
    apply os_mkdir_dirs_added in Hmk as [Hadd Hdir].
    destruct r0 as [[]|e].
    + mkdir_case.
    + assert (Hother :
        (if is_dir (take (S n) p) fs0 then (Ok (), fs0) else (Raise e, fs0))
        = (r, fs') →
        dirs_added p fs fs' ∧ (r = Ok () → is_dir (take (S n) p) fs' = true)).
      { destruct (is_dir (take (S n) p) fs0) eqn:Hd; mkdir_case. }
      destruct e; try exact Hother.
      destruct (mkdir_parents_upto n p fs0) as [r1 fs1] eqn:Hrec.
      apply IH in Hrec as [Hadd1 _].
      destruct r1 as [[]|e1].
      * intros [Hadd2 Hdir2]%mkdir_exist_ok_dirs_added. split; [|done].
        eauto using dirs_added_trans.
      * intros [= <- <-]. split; [|done]. eauto using dirs_added_trans.
Qed.

(** The constructor's [mkdir] adds directories only, on the way to the
    directory it is asked for, which is there when it succeeds. *)
Lemma mkdir_parents_spec p fs r fs' :
  mkdir_parents p fs = (r, fs') →
  dirs_added p fs fs' ∧ (r = Ok () → is_dir p fs' = true).
Proof.
  unfold mkdir_parents. intros [Hadd Hdir]%mkdir_parents_upto_dirs_added.
  by rewrite firstn_all in Hdir.
Qed.

(** ** Loading the data and [main] *)

(** The walk ends on a file exactly when the path is under a file. *)
Lemma walk_upto_spec n p fs :
  match walk_upto n p fs with
  | None => ∀ j, (0 < j ≤ n)%nat → is_dir (take j p) fs = true
  | Some e =>
      ∃ k, (0 < k ≤ n)%nat
        ∧ (∀ j, (0 < j < k)%nat → is_dir (take j p) fs = true)
        ∧ ((e = FileNotFoundError p ∧ fs !! take k p = None)
           ∨ (e = NotADirectoryError p
              ∧ ∃ rd wr c, fs !! take k p = Some (File rd wr c)))
  end.
Proof.
  induction n as [|n IH]; cbn [walk_upto]; [intros j; lia|].
  destruct (walk_upto n p fs) as [e|].
  - destruct IH as (k & Hk & Hdirs & He). exists k. split; [lia|done].
  - destruct (fs !! take (S n) p) as [[wr|rd wr c]|] eqn:Hn.
    + intros j Hj. destruct (decide (j = S n)) as [->|]; [|apply IH; lia].
      unfold is_dir. by rewrite Hn.
    + exists (S n). split; [lia|]. split; [intros j Hj; apply IH; lia|].
      right. split; [done|]. by exists rd, wr, c.
    + exists (S n). split; [lia|]. split; [intros j Hj; apply IH; lia|].
      by left.
Qed.

Lemma open_missing_cases p fs :
  open_missing p fs = FileNotFoundError p
  ∨ open_missing p fs = NotADirectoryError p.
Proof.
  unfold open_missing. pose proof (walk_upto_spec (length p - 1) p fs) as H.
  destruct (walk_upto (length p - 1) p fs) as [e|]; [|by left].
  destruct H as (_ & _ & _ & [[-> _]|[-> _]]); [by left|by right].
Qed.

Lemma open_missing_under_file p fs :
  under_file p fs → open_missing p fs = NotADirectoryError p.
Proof.
  intros (k & rd & wr & c & Hk & Hfile & Hdirs).
  unfold open_missing. pose proof (walk_upto_spec (length p - 1) p fs) as H.
  destruct (walk_upto (length p - 1) p fs) as [e|].
  - destruct H as (k' & Hk' & Hdirs' & He).
    destruct (decide (k' < k)%nat) as [Hlt|Hge].
    { specialize (Hdirs k' ltac:(lia)). unfold is_dir in Hdirs.
      destruct He as [[_ He]|[_ (? & ? & ? & He)]]; by rewrite He in Hdirs. }
    destruct (decide (k < k')%nat) as [Hlt|Hge'].
    { specialize (Hdirs' k ltac:(lia)). unfold is_dir in Hdirs'.
      by rewrite Hfile in Hdirs'. }
    assert (k' = k) as -> by lia.
    destruct He as [[_ He]|[-> _]]; [congruence|done].
  - specialize (H k ltac:(lia)). unfold is_dir in H. by rewrite Hfile in H.
Qed.

Lemma open_missing_not_under_file p fs :
  ¬ under_file p fs → open_missing p fs = FileNotFoundError p.
Proof.
  intros Hnot. destruct (open_missing_cases p fs) as [?|He]; [done|].
  destruct Hnot. unfold open_missing in He.
  pose proof (walk_upto_spec (length p - 1) p fs) as H.
  destruct (walk_upto (length p - 1) p fs) as [e|]; [|done].
  simpl in He. subst e.
  destruct H as (k & Hk & Hdirs & [[[=] _]|[_ (rd & wr & c & Hfile)]]).
  exists k, rd, wr, c. split; [lia|done].
Qed.

Lemma load_data_unified_missing self w :
  files w !! unified_data_path self = None →
  ¬ under_file (unified_data_path self) (files w) →
  load_data self w
  = (Ok (false, self),
     {| files := files w;
        stdout := stdout w
                  ++ [ Line "Loading datasets...";
                       LineExn "Error loading data: "
                               (FileNotFoundError (unified_data_path self)) ] |}).
Proof.
  intros Hu Hnot%open_missing_not_under_file.
  unfold load_data, fs_io, read_csv, print. simpl. rewrite Hu, Hnot. simpl.
  unfold mbind, IO_bind, print, mret, IO_ret. simpl.
  by rewrite <- (assoc_L (++)).
Qed.

Lemma load_data_reference_missing self w wr table :
  files w !! unified_data_path self = Some (File true wr (Csv table)) →
  files w !! reference_codes_path self = None →
  ¬ under_file (reference_codes_path self) (files w) →
  load_data self w
  = (Ok (false, set_df table self),
     {| files := files w;
        stdout := stdout w
                  ++ [ Line "Loading datasets...";
                       LineExn "Error loading data: "
                               (FileNotFoundError (reference_codes_path self)) ] |}).
Proof.
  intros Hu Hr Hnot%open_missing_not_under_file.
  unfold load_data, fs_io, read_csv, print. simpl. rewrite Hu. simpl.
  change (reference_codes_path (set_df table self))
    with (reference_codes_path self).
  rewrite Hr, Hnot. simpl.
  unfold mbind, IO_bind, print, mret, IO_ret. simpl.
  by rewrite <- (assoc_L (++)).
Qed.

Lemma load_data_unified_under_file self w :
  files w !! unified_data_path self = None →
  under_file (unified_data_path self) (files w) →
  load_data self w
  = (Raise (NotADirectoryError (unified_data_path self)),
     {| files := files w; stdout := stdout w ++ [Line "Loading datasets..."] |}).
Proof.
  intros Hu Hunder%open_missing_under_file.
  unfold load_data, fs_io, read_csv, print. simpl. by rewrite Hu, Hunder.
Qed.

Lemma load_data_reference_under_file self w wr table :
  files w !! unified_data_path self = Some (File true wr (Csv table)) →
  files w !! reference_codes_path self = None →
  under_file (reference_codes_path self) (files w) →
  load_data self w
  = (Raise (NotADirectoryError (reference_codes_path self)),
     {| files := files w; stdout := stdout w ++ [Line "Loading datasets..."] |}).
Proof.
  intros Hu Hr Hunder%open_missing_under_file.
  unfold load_data, fs_io, read_csv, print. simpl. rewrite Hu. simpl.
  change (reference_codes_path (set_df table self))
    with (reference_codes_path self).
  by rewrite Hr, Hunder.
Qed.

Lemma load_data_unified_unreadable self w wr c :
  files w !! unified_data_path self = Some (File false wr c) →
  load_data self w
  = (Raise (PermissionError (unified_data_path self)),
     {| files := files w; stdout := stdout w ++ [Line "Loading datasets..."] |}).
Proof.
  intros Hu. unfold load_data, fs_io, read_csv, print. simpl. by rewrite Hu.
Qed.

Lemma bind_IO {A B} (m : IO A) (k : A → IO B) w :
  (m ≫= k) w
  = match m w with
    | (Ok a, w') => k a w'
    | (Raise e, w') => (Raise e, w')
    end.
Proof. reflexivity. Qed.

Lemma bind_print {B} l (k : unit → IO B) w :
  (print l ≫= k) w = k () {| files := files w; stdout := stdout w ++ [l] |}.
Proof. reflexivity. Qed.

Lemma load_data_reference_unreadable self w wr table wr' c :
  files w !! unified_data_path self = Some (File true wr (Csv table)) →
  files w !! reference_codes_path self = Some (File false wr' c) →
  load_data self w
  = (Raise (PermissionError (reference_codes_path self)),
     {| files := files w; stdout := stdout w ++ [Line "Loading datasets..."] |}).
Proof.
  intros Hu Hr. unfold load_data, fs_io, read_csv, print. simpl. rewrite Hu. simpl.
  change (reference_codes_path (set_df table self))
    with (reference_codes_path self).
  by rewrite Hr.
Qed.

(** The constructor's [mkdir] leaves the files as they are, and the paths
    longer than the directory too. *)
Lemma dirs_added_file p fs fs' q rd wr c :
  dirs_added p fs fs' → fs' !! q = Some (File rd wr c) →
  fs !! q = Some (File rd wr c).
Proof. intros Hadd Hq. destruct (Hadd q) as [<-|(_ & ? & _)]; congruence. Qed.

Lemma dirs_added_longer p fs fs' q :
  dirs_added p fs fs' → (length p < length q)%nat → fs' !! q = fs !! q.
Proof.
  intros Hadd Hlen. destruct (Hadd q) as [?|(_ & _ & k & ->)]; [done|].
  rewrite length_take in Hlen. lia.
Qed.

Section MainFacts.
Variable to_datetime : Series → scalar → option Timestamp.
Variable strftime_ymd : Timestamp → string.

Abbreviation run := (run_script to_datetime strftime_ymd).

(** When the constructor fails, so does [main]. *)
Lemma main_init_fails now w e fs1 :
  mkdir_parents [".."; "data"; "processed"] (files w) = (Raise e, fs1) →
  main to_datetime strftime_ymd now w
  = (Raise e, {| files := fs1; stdout := stdout w ++ header |}).
Proof.
  intros Hmk. unfold main. rewrite !bind_print. cbv beta.
  rewrite bind_IO. unfold init. rewrite bind_IO. unfold fs_io.
  cbn [files stdout app processed_dir]. rewrite Hmk.
  by rewrite <- !(assoc_L (++)).
Qed.

(** When the data is not loaded, [main] ends as [load_data] does: it
    returns when [load_data] returns [False], and it raises what
    [load_data] raises. *)
Lemma main_not_loaded now w fs1 r w2 :
  mkdir_parents [".."; "data"; "processed"] (files w) = (Ok (), fs1) →
  load_data default_processor {| files := fs1; stdout := stdout w ++ header |}
  = (r, w2) →
  (∀ self, r ≠ Ok (true, self)) →
  main to_datetime strftime_ymd now w
  = (match r with Ok _ => Ok () | Raise e => Raise e end, w2).
Proof.
  intros Hmk Hload Hr. unfold main. rewrite !bind_print. cbv beta.
  rewrite bind_IO. unfold init. rewrite bind_IO. unfold fs_io.
  cbn [files stdout app processed_dir]. rewrite Hmk.
  rewrite <- !(assoc_L (++)). cbn [app]. fold header.
  unfold mret at 1, IO_ret. rewrite bind_IO.
  change (mkDataProcessor _ _ _ _ _) with default_processor.
  rewrite Hload. destruct r as [[[] self]|e]; [|done..].
  by destruct (Hr self).
Qed.

End MainFacts.



(** ** The report *)

Lemma world_eta w : {| files := files w; stdout := stdout w |} = w.
Proof. by destruct w. Qed.

(** The report is written when its file can be opened, and only then. *)
Lemma generate_report_writable self now analysis new_records w :
  writable (report_path self) (files w) →
  ∃ rd, generate_report self now analysis new_records w
        = (Ok (report_path self),
           {| files := <[report_path self :=
                           File rd true (Text (Json.dumps 2
                             (build_report now analysis new_records)))]> (files w);
              stdout := stdout w |}).
Proof.
  unfold generate_report, writable. rewrite bind_IO. unfold fs_io, write_file.
  intros [(rd & c & ->)|[-> ->]]; by eexists.
Qed.

Lemma generate_report_unwritable self now analysis new_records w :
  ¬ writable (report_path self) (files w) →
  ∃ e, generate_report self now analysis new_records w = (Raise e, w).
Proof.
  unfold generate_report, writable. rewrite bind_IO. unfold fs_io, write_file.
  intros Hw.
  destruct (files w !! report_path self) as [[?|rd [] c]|] eqn:Hdest.
  - rewrite world_eta. by eexists.
  - destruct Hw. left. by exists rd, c.
  - rewrite world_eta. by eexists.
  - destruct (files w !! parent (report_path self)) as [[[]|]|] eqn:Hparent.
    + destruct Hw. by right.
    + rewrite world_eta. by eexists.
    + rewrite world_eta. by eexists.
    + rewrite world_eta. by eexists.
Qed.


Lemma report_writable_with_inputs :
  writable (report_path default_processor) (files world_with_inputs).
Proof. right. split; reflexivity. Qed.


(** C9: a report is the timestamp followed by fields that depend on the
    analysis and on the new records only, so that two reports built from
    the same inputs agree on every field but [generated_date]. *)
Theorem build_report_deterministic now1 now2 analysis new_records :
  (∃ fields, ∀ now, build_report now analysis new_records
                    = PDict ((SStr "generated_date", PStr now) :: fields))
  ∧ ∀ key, key ≠ "generated_date" →
      py_get key (build_report now1 analysis new_records)
      = py_get key (build_report now2 analysis new_records).
Proof.
  split; [by eexists|].
  intros key Hkey. unfold build_report, py_get. cbn [dict_get].
  case_decide as Hk; [|done]. congruence.
Qed.

Lemma build_report_deterministic_witness :
  "enrichment_summary" ≠ "generated_date"
  ∧ py_get "enrichment_summary"
      (build_report "2026-01-31T10:00:00" (analysis_dict scenario_analysis) ∅)
    = py_get "enrichment_summary"
        (build_report "2027-12-24T18:30:00" (analysis_dict scenario_analysis) ∅).
Proof.
  assert (Hne : "enrichment_summary" ≠ "generated_date") by done.
  split; [exact Hne|].
  apply (build_report_deterministic "2026-01-31T10:00:00" "2027-12-24T18:30:00"
           (analysis_dict scenario_analysis) ∅), Hne.
Defined.



(** ** Growth metrics *)

Module GrowthFacts.
Import Growth.

(** A float above zero is not zero. *)
Lemma positive_not_zero (c : float) :
  PrimFloat.ltb 0%float c = true → PrimFloat.eqb c 0%float = false.
Proof.
  rewrite FloatAxioms.ltb_spec, FloatAxioms.eqb_spec. unfold SFltb, SFeqb.
  change (Prim2SF 0%float) with (S754_zero false).
  destruct (Prim2SF c) as [s|s| |s m e]; simpl; try done.
  all: by destruct s.
Qed.

Section MetricsFacts.
Variable float_pow : float → float → power.

(** The doubling time is always computed from a float: the division is
    only reached with a divisor above zero. *)
Lemma doubling_time_of_float c :
  doubling_time_of (NFloat c)
  = Ok (if PrimFloat.ltb 0%float c then Some (PrimFloat.div 72%float c)
        else None).
Proof.
  unfold doubling_time_of, float_div.
  destruct (PrimFloat.ltb 0%float c) eqn:Hc; [|done].
  by rewrite positive_not_zero.
Qed.

(** C10: with fewer than two forecast values the result is the empty
    mapping.  Otherwise, as soon as the annual growth and the CAGR are
    computed, the CAGR being the float [c], the call returns, and the
    doubling time is [72 / c] when [c] is above zero and [None] when it
    is not: the division by the CAGR raises nothing.  And a mapping that
    is returned always has this shape. *)
Theorem doubling_time_guarded {A} current_value forecast_values
    (years : list A) :
  ((length forecast_values < 2)%nat →
   calculate_growth_metrics float_pow current_value forecast_values years
   = Ok None)
  ∧ ((2 ≤ length forecast_values)%nat →
     (∀ final annual c,
        last forecast_values = Some final →
        float_div (PrimFloat.sub final current_value)
                  (float_of_len (length years)) = Ok annual →
        cagr_of float_pow current_value final (length years)
        = Ok (NFloat c) →
        calculate_growth_metrics float_pow current_value forecast_values years
        = Ok (Some {| total_growth_pp := PrimFloat.sub final current_value;
                      annual_growth_pp := annual;
                      cagr_percent := NFloat c;
                      doubling_time :=
                        if PrimFloat.ltb 0%float c
                        then Some (PrimFloat.div 72%float c) else None |}))
     ∧ ∀ m,
         calculate_growth_metrics float_pow current_value forecast_values years
         = Ok m →
         ∃ metrics c,
           m = Some metrics ∧ cagr_percent metrics = NFloat c
           ∧ doubling_time metrics
             = if PrimFloat.ltb 0%float c
               then Some (PrimFloat.div 72%float c) else None).
Proof.
  unfold calculate_growth_metrics. split.
  - intros Hlen. by rewrite decide_True.
  - intros Hlen. rewrite decide_False by lia. split.
    + intros final annual c -> -> Hc. cbn -[doubling_time_of].
      rewrite Hc. cbn -[doubling_time_of].
      by rewrite doubling_time_of_float.
    + intros m. destruct (last forecast_values) as [final|]; [|done].
      destruct (float_div _ _) as [annual|e]; cbn -[doubling_time_of];
        [|done].
      destruct (cagr_of _ _ _ _) as [[c|]|e]; cbn -[doubling_time_of];
        [| done..].
      rewrite doubling_time_of_float. simpl. intros [= <-].
      by eexists _, c.
Qed.
End MetricsFacts.

(** From 50.0 to 55.0 over one year: a CAGR of 10.000000000000009 and a
    doubling time of 7.199999999999994 years. *)
Example growth_one_year :
  calculate_growth_metrics pow_one_year 50%float [52.5%float; 55%float] [2025%Z]
  = Ok (Some {| total_growth_pp := 5%float;
                annual_growth_pp := 5%float;
                cagr_percent := NFloat 0x1.4000000000005p+3%float;
                doubling_time := Some 0x1.cccccccccccc6p+2%float |}).
Proof. vm_compute. reflexivity. Qed.

(** No growth: the CAGR is zero and there is no doubling time. *)
Example growth_flat :
  calculate_growth_metrics pow_one_year 50%float [52.5%float; 50%float] [2025%Z]
  = Ok (Some {| total_growth_pp := 0%float;
                annual_growth_pp := 0%float;
                cagr_percent := NFloat 0%float;
                doubling_time := None |}).
Proof. vm_compute. reflexivity. Qed.

(** Without years the annual growth divides by zero. *)
Example growth_without_years :
  calculate_growth_metrics pow_one_year 50%float [52.5%float; 55%float]
                           (@nil Z)
  = Raise ZeroDivisionError.
Proof. vm_compute. reflexivity. Qed.

Lemma doubling_time_guarded_witness :
  (2 ≤ length [52.5%float; 55%float])%nat
  ∧ ∃ metrics c,
      calculate_growth_metrics pow_one_year 50%float [52.5%float; 55%float]
                               [2025%Z]
      = Ok (Some metrics)
      ∧ cagr_percent metrics = NFloat c
      ∧ doubling_time metrics
        = if PrimFloat.ltb 0%float c
          then Some (PrimFloat.div 72%float c) else None.
Proof.
  assert (Hlen : (2 ≤ length [52.5%float; 55%float])%nat) by (simpl; lia).
  split; [exact Hlen|].
  destruct (proj2 (doubling_time_guarded pow_one_year 50%float
                     [52.5%float; 55%float] [2025%Z]) Hlen) as [_ Hshape].
  destruct (Hshape _ growth_one_year) as (metrics & c & [= <-] & Hc & Hd).
  eexists. exists c. split; [apply growth_one_year|]. by split.
Defined.
End GrowthFacts.

(** * Further properties *)

(** ** The analysis *)

Lemma df_isnull_sum_keys df : (df_isnull_sum df).*1 = columns df.
Proof.
  unfold df_isnull_sum.
  assert (Hgen : ∀ (g : nat → nat) (cols : list string),
            (imap (λ i name, (name, g i)) cols).*1 = cols).
  { intros g cols. revert g. induction cols as [|c cols IH]; intros g; [done|].
    rewrite imap_cons, fmap_cons. simpl. f_equal. apply (IH (g ∘ S)). }
  apply Hgen.
Qed.

Lemma dict_get_imap {V} (g : nat → V) (c : string) (cols : list string) :
  dict_get c (imap (λ i name, (name, g i)) cols) = g <$> column_index c cols.
Proof.
  revert g. induction cols as [|c0 cols IH]; intros g; [done|].
  rewrite imap_cons. simpl. case_decide; [done|].
  change (dict_get c (imap (λ i name, (name, (g ∘ S) i)) cols)
          = g <$> (S <$> column_index c cols)).
  rewrite (IH (g ∘ S)). by destruct (column_index c cols).
Qed.

Lemma NoDup_filter_keys {K V} (P : K * V → Prop) `{!∀ kv, Decision (P kv)}
    (d : dict K V) :
  NoDup d.*1 → NoDup (filter P d).*1.
Proof.
  induction d as [|[k v] d IH]; [done|]. rewrite fmap_cons.
  intros [Hk Hnd]%NoDup_cons. simpl in Hk.
  rewrite filter_cons. case_decide; [|by apply IH].
  rewrite fmap_cons. apply NoDup_cons. split; [|by apply IH]. simpl.
  intros ((k' & v') & -> & [_ Hin]%list_elem_of_filter)%list_elem_of_fmap.
  apply Hk. apply list_elem_of_fmap. by exists (k', v').
Qed.

Lemma dict_get_filter {K V} `{EqDecision K} (P : K * V → Prop)
    `{!∀ kv, Decision (P kv)} (k : K) (d : dict K V) :
  NoDup d.*1 →
  dict_get k (filter P d)
  = v ← dict_get k d; if decide (P (k, v)) then Some v else None.
Proof.
  induction d as [|[k' v'] d IH]; [done|]. rewrite fmap_cons.
  intros [Hk Hnd]%NoDup_cons. simpl in Hk. rewrite filter_cons. simpl.
  destruct (decide (k' = k)) as [->|Hne].
  - simpl. destruct (decide (P (k, v'))) as [HP|HP].
    + simpl. by rewrite decide_True.
    + apply dict_get_None.
      intros ((k' & v'') & -> & [_ Hin]%list_elem_of_filter)%list_elem_of_fmap.
      apply Hk. apply list_elem_of_fmap. by exists (k', v'').
  - destruct (decide (P (k', v'))); simpl; [|by apply IH].
    rewrite decide_False by done. by apply IH.
Qed.

Lemma insert_desc_sorted x l :
  StronglySorted by_count_desc l → StronglySorted by_count_desc (insert_desc x l).
Proof.
  induction 1 as [|y l Hl IH Hy]; simpl; [by repeat constructor|].
  case_decide as Hxy.
  - constructor; [done|]. rewrite insert_desc_Permutation.
    constructor; [|done]. unfold by_count_desc. lia.
  - constructor; [by constructor|]. constructor.
    + unfold by_count_desc. lia.
    + eapply Forall_impl; [exact Hy|]. unfold by_count_desc. intros z ?. lia.
Qed.

Lemma sort_values_desc_sorted l : StronglySorted by_count_desc (sort_values_desc l).
Proof.
  induction l as [|x l IH]; simpl; [constructor|]. by apply insert_desc_sorted.
Qed.

Lemma occurrences_le v l : (occurrences v l ≤ length l)%nat.
Proof. unfold occurrences. apply length_filter. Qed.

Lemma length_dropna_le (s : Series) : (length (dropna s) ≤ length s)%nat.
Proof. pose proof (dropna_isnull_length s). lia. Qed.

Lemma length_omap_le {A B} (f : A → option B) (l : list A) :
  (length (omap f l) ≤ length l)%nat.
Proof.
  induction l as [|x l IH]; csimpl; [done|]. destruct (f x); simpl; lia.
Qed.

Lemma length_unique_le l : (length (unique l) ≤ length l)%nat.
Proof.
  apply submseteq_length, NoDup_submseteq; [apply NoDup_unique|].
  intros x. by rewrite elem_of_unique.
Qed.

Section AnalyzerMore.
Variable to_datetime : Series → scalar → option Timestamp.
Variable strftime_ymd : Timestamp → string.

Abbreviation analyze := (analyze_dataset to_datetime strftime_ymd).

(** X1: when the column names are distinct, [missing_values] reports
    exactly the columns that have a missing cell, each with the number of
    its missing cells: a column without a missing cell, and a name that is
    no column, are not keys. *)
Theorem missing_values_complete df a :
  analyze df = Ok a → NoDup (columns df) →
  ∀ c, dict_get c (missing_values a) = missing_in df c.
Proof.
  intros (i & j & obs & _ & _ & _ & _ & _ & _ & _ & _ & Hm)%analyze_dataset_Ok
    Hnd c.
  assert (Hkeys : NoDup (filter (λ kv : string * nat, (0 < kv.2)%nat)
                           (df_isnull_sum df)).*1).
  { apply NoDup_filter_keys. by rewrite df_isnull_sum_keys. }
  rewrite Hm, to_dict_NoDup by done.
  rewrite dict_get_filter by (by rewrite df_isnull_sum_keys).
  unfold df_isnull_sum, missing_in. rewrite dict_get_imap.
  by destruct (column_index c (columns df)).
Qed.

(** X2: [record_counts] lists the values by decreasing count; its keys are
    distinct, and every count is at least one and at most the number of
    rows. *)
Theorem record_counts_sorted df a :
  analyze df = Ok a →
  StronglySorted by_count_desc (record_counts a)
  ∧ NoDup (record_counts a).*1
  ∧ ∀ v n, (v, n) ∈ record_counts a → (1 ≤ n ≤ df_len df)%nat.
Proof.
  intros (i & j & obs & _ & _ & _ & _ & Hc & _)%analyze_dataset_Ok.
  rewrite Hc. split; [apply sort_values_desc_sorted|].
  split; [apply NoDup_value_counts|].
  intros v n [Hv ->]%elem_of_value_counts. split.
  - by apply occurrences_pos.
  - etrans; [apply occurrences_le|]. etrans; [apply length_dropna_le|].
    unfold column_at, df_len. by rewrite length_fmap.
Qed.

(** X3: the sample holds five indicator codes, or all of them when there
    are fewer; its codes are distinct codes of observation rows; and there
    are no more distinct codes than observation rows. *)
Theorem sample_indicators_bounds df a :
  analyze df = Ok a →
  length (sample_indicators a) = (5 `min` unique_indicators_count a)%nat
  ∧ NoDup (sample_indicators a)
  ∧ (∀ v, v ∈ sample_indicators a → v ∈ observation_indicator_codes df)
  ∧ ((unique_indicators_count a ≤ 5)%nat →
     ∀ v, v ∈ observation_indicator_codes df → v ∈ sample_indicators a)
  ∧ (unique_indicators_count a ≤ length (observations df))%nat.
Proof.
  intros (i & j & obs & _ & _ & _ & _ & _ & _ & Hn & Hs & _)%analyze_dataset_Ok.
  rewrite Hn, Hs. set (u := unique (observation_indicator_codes df)).
  pose proof (NoDup_unique (observation_indicator_codes df)) as Hnd.
  fold u in Hnd. repeat split.
  - by rewrite length_take.
  - rewrite <- (take_drop 5 u) in Hnd. by apply NoDup_app in Hnd as [? _].
  - intros v Hv. apply elem_of_unique. by apply (subseteq_take 5 u).
  - intros Hle v Hv. rewrite take_ge by done. by apply elem_of_unique.
  - etrans; [apply length_unique_le|]. apply length_omap_le.
Qed.

(** X4: the rows that are not observations count for nothing in the date
    range and in the indicators: two tables with the same columns and the
    same observation rows have the same date range, the same number of
    indicators and the same sample. *)
Theorem analysis_of_observations_only df df' a a' :
  columns df = columns df' → observations df = observations df' →
  analyze df = Ok a → analyze df' = Ok a' →
  obs_date_range a = obs_date_range a'
  ∧ unique_indicators_count a = unique_indicators_count a'
  ∧ sample_indicators a = sample_indicators a'.
Proof.
  intros Hcols Hrows
    (i & j & obs & _ & _ & Hc & Hr & _ & Hd & Hn & Hs & _)%analyze_dataset_Ok
    (i' & j' & obs' & _ & _ & Hc' & Hr' & _ & Hd' & Hn' & Hs' & _)%analyze_dataset_Ok.
  assert (obs = obs') as <-.
  { destruct obs, obs'. simpl in *. congruence. }
  assert (observation_indicator_codes df = observation_indicator_codes df') as Hcodes.
  { unfold observation_indicator_codes. rewrite <- Hrows.
    apply omap_pointwise. intros r. unfold cell_of. by rewrite Hcols. }
  split; [congruence|]. rewrite Hn, Hn', Hs, Hs', Hcodes. done.
Qed.
End AnalyzerMore.

Lemma missing_values_complete_witness :
  Sample.analyze_dataset scenario_table = Ok scenario_analysis
  ∧ NoDup (columns scenario_table)
  ∧ dict_get "observation_date" (missing_values scenario_analysis) = Some 1%nat
  ∧ dict_get "record_type" (missing_values scenario_analysis) = None.
Proof.
  assert (Hnd : NoDup (columns scenario_table))
    by (apply (bool_decide_unpack _); vm_compute; exact I).
  split; [reflexivity|]. split; [exact Hnd|].
  split.
  - by rewrite (missing_values_complete Sample.to_datetime Sample.strftime_ymd
                  scenario_table scenario_analysis eq_refl Hnd).
  - by rewrite (missing_values_complete Sample.to_datetime Sample.strftime_ymd
                  scenario_table scenario_analysis eq_refl Hnd).
Defined.

Lemma record_counts_sorted_witness :
  Sample.analyze_dataset scenario_table = Ok scenario_analysis
  ∧ StronglySorted by_count_desc (record_counts scenario_analysis).
Proof.
  split; [reflexivity|].
  apply (record_counts_sorted Sample.to_datetime Sample.strftime_ymd
           scenario_table scenario_analysis eq_refl).
Defined.

Lemma sample_indicators_bounds_witness :
  Sample.analyze_dataset scenario_table = Ok scenario_analysis
  ∧ length (sample_indicators scenario_analysis)
    = (5 `min` unique_indicators_count scenario_analysis)%nat.
Proof.
  split; [reflexivity|].
  apply (sample_indicators_bounds Sample.to_datetime Sample.strftime_ymd
           scenario_table scenario_analysis eq_refl).
Defined.

Lemma analysis_of_observations_only_witness :
  columns scenario_table = columns observations_only_table
  ∧ observations scenario_table = observations observations_only_table
  ∧ ∃ a', Sample.analyze_dataset observations_only_table = Ok a'
          ∧ obs_date_range scenario_analysis = obs_date_range a'.
Proof.
  split; [reflexivity|]. split; [reflexivity|].
  eexists. split; [reflexivity|].
  apply (analysis_of_observations_only Sample.to_datetime Sample.strftime_ymd
           scenario_table observations_only_table scenario_analysis _
           eq_refl eq_refl eq_refl eq_refl).
Defined.

(** ** Loading, and [main] to its end *)

Lemma load_data_both self w wr table wr' refs :
  files w !! unified_data_path self = Some (File true wr (Csv table)) →
  files w !! reference_codes_path self = Some (File true wr' (Csv refs)) →
  load_data self w
  = (Ok (true, set_ref_codes refs (set_df table self)),
     {| files := files w; stdout := stdout w ++ loaded_lines table refs |}).
Proof.
  intros Hu Hr. unfold load_data, fs_io, read_csv, print. simpl. rewrite Hu. simpl.
  change (reference_codes_path (set_df table self))
    with (reference_codes_path self).
  rewrite Hr. simpl.
  unfold mbind, IO_bind, print, mret, IO_ret. simpl.
  by rewrite <- !(assoc_L (++)).
Qed.

Local Ltac load_data_case :=
  unfold raise, mbind, IO_bind, print, mret, IO_ret; simpl;
  intros [= <- <-]; repeat split;
  try done; try (by intros ? [=]); try (by intros ? [= <-] ?);
  try (intros ? _; by auto).

(** X5: [load_data] reads and prints and leaves the files as they are.  It
    returns [True] only when both files hold a table it can read, the
    object then holding the two tables; it returns [False] only when one of
    the two files is not there; and what it raises is never a
    [FileNotFoundError]. *)
Theorem load_data_outcomes self w r w' :
  load_data self w = (r, w') →
  files w' = files w
  ∧ (∀ self', r = Ok (true, self') →
       ∃ wr table wr' refs,
         files w !! unified_data_path self = Some (File true wr (Csv table))
         ∧ files w !! reference_codes_path self
           = Some (File true wr' (Csv refs))
         ∧ df self' = Some table ∧ ref_codes self' = Some refs
         ∧ processed_dir self' = processed_dir self)
  ∧ (∀ self', r = Ok (false, self') →
       files w !! unified_data_path self = None
       ∨ files w !! reference_codes_path self = None)
  ∧ (∀ e, r = Raise e → ∀ p, e ≠ FileNotFoundError p).
Proof.
  unfold load_data, fs_io, read_csv, print. simpl.
  destruct (files w !! unified_data_path self) as [[?|[] wr [table|?]]|] eqn:Hu;
    simpl; try load_data_case.
  2: { destruct (open_missing_cases (unified_data_path self) (files w))
         as [->| ->]; simpl; load_data_case. }
  change (reference_codes_path (set_df table self))
    with (reference_codes_path self).
  destruct (files w !! reference_codes_path self)
    as [[?|[] wr' [refs|?]]|] eqn:Hr; simpl; try load_data_case.
  2: { destruct (open_missing_cases (reference_codes_path self) (files w))
         as [->| ->]; simpl; load_data_case. }
  intros self' [= <-]. by exists wr, table, wr', refs.
Qed.

Lemma load_data_outcomes_witness :
  files (load_data default_processor world_with_inputs).2
  = files world_with_inputs
  ∧ ∀ p, (load_data default_processor world_unreadable_input).1
         ≠ Raise (FileNotFoundError p).
Proof.
  split.
  - exact (proj1 (load_data_outcomes default_processor world_with_inputs _ _
                    (surjective_pairing _))).
  - intros p.
    destruct (load_data_outcomes default_processor world_unreadable_input _ _
                (surjective_pairing _)) as (_ & _ & _ & Hraise).
    intros Heq. exact (Hraise _ Heq p eq_refl).
Defined.

Lemma mkdir_parents_upto_existing n p fs :
  is_dir (take n p) fs = true → mkdir_parents_upto n p fs = (Ok (), fs).
Proof.
  intros Hdir. assert (Hmk : os_mkdir (take n p) fs
                             = (Raise (FileExistsError (take n p)), fs)).
  { unfold os_mkdir. unfold is_dir in Hdir.
    by destruct (fs !! take n p) as [[]|]. }
  destruct n; cbn [mkdir_parents_upto]; by rewrite Hmk, Hdir.
Qed.

Lemma init_eq dir w :
  init dir w
  = match mkdir_parents (dir ++ ["processed"]) (files w) with
    | (Ok _, fs1) =>
        (Ok {| data_dir := dir; raw_dir := dir ++ ["raw"];
               processed_dir := dir ++ ["processed"];
               df := None; ref_codes := None |},
         {| files := fs1; stdout := stdout w |})
    | (Raise e, fs1) => (Raise e, {| files := fs1; stdout := stdout w |})
    end.
Proof.
  unfold init. rewrite bind_IO. unfold fs_io. cbn [processed_dir].
  by destruct (mkdir_parents _ _) as [[[]|e] fs1].
Qed.

(** X6: the constructor keeps every file and directory that is there.
    Once it has succeeded, constructing again succeeds, gives the same
    object and changes nothing; and where the processed directory is taken
    by a file, it raises [FileExistsError] and changes nothing. *)
Theorem init_idempotent dir w :
  (∀ r w1, init dir w = (r, w1) →
     stdout w1 = stdout w
     ∧ ∀ q nd, files w !! q = Some nd → files w1 !! q = Some nd)
  ∧ (∀ self w1, init dir w = (Ok self, w1) → init dir w1 = (Ok self, w1))
  ∧ (∀ rd wr c, files w !! (dir ++ ["processed"]) = Some (File rd wr c) →
       init dir w = (Raise (FileExistsError (dir ++ ["processed"])), w)).
Proof.
  repeat split.
  - revert H. rewrite init_eq.
    destruct (mkdir_parents _ _) as [[[]|e] fs1]; by intros [= <- <-].
  - intros q nd Hq. revert H. rewrite init_eq.
    destruct (mkdir_parents _ _) as [r0 fs1] eqn:Hmk.
    apply mkdir_parents_spec in Hmk as [Hadd _].
    assert (fs1 !! q = Some nd).
    { destruct (Hadd q) as [->|(? & _)]; congruence. }
    destruct r0 as [[]|e]; by intros [= <- <-].
  - intros self w1. rewrite !init_eq.
    destruct (mkdir_parents _ (files w)) as [r0 fs1] eqn:Hmk.
    apply mkdir_parents_spec in Hmk as [_ Hdir].
    destruct r0 as [[]|e]; [|done]. intros [= <- <-]. cbn [files stdout].
    unfold mkdir_parents. by rewrite mkdir_parents_upto_existing
      by (rewrite firstn_all; by apply Hdir).
  - intros rd wr c Hfile. rewrite init_eq. unfold mkdir_parents.
    assert (Hmk : os_mkdir (take (length (dir ++ ["processed"]))
                              (dir ++ ["processed"])) (files w)
                  = (Raise (FileExistsError (dir ++ ["processed"])), files w)).
    { rewrite firstn_all. unfold os_mkdir. by rewrite Hfile. }
    destruct (length (dir ++ ["processed"])) eqn:Hlen;
      cbn [mkdir_parents_upto]; rewrite Hmk; unfold is_dir;
      rewrite <- Hlen, firstn_all, Hfile, world_eta; done.
Qed.

Lemma init_idempotent_witness :
  ∃ self w1, init [".."; "data"] world_without_inputs = (Ok self, w1)
             ∧ init [".."; "data"] w1 = (Ok self, w1).
Proof.
  destruct (init [".."; "data"] world_without_inputs) as [[self|e] w1] eqn:Hinit;
    [|by vm_compute in Hinit].
  exists self, w1. split; [done|].
  by apply (init_idempotent [".."; "data"] world_without_inputs).
Defined.

Lemma generate_report_Ok self now analysis new_records w p w1 :
  generate_report self now analysis new_records w = (Ok p, w1) →
  p = report_path self
  ∧ ∃ rd, w1 = {| files := <[report_path self :=
                               File rd true (Text (Json.dumps 2
                                 (build_report now analysis new_records)))]>
                             (files w);
                  stdout := stdout w |}.
Proof.
  unfold generate_report. rewrite bind_IO. unfold fs_io, write_file.
  destruct (files w !! report_path self) as [[?|rd [] c]|];
    [done| |done|].
  - intros [= <- <-]. split; [done|]. by exists rd.
  - destruct (files w !! parent (report_path self)) as [[[]|]|]; try done.
    intros [= <- <-]. split; [done|]. by exists true.
Qed.

(** X7: a report replaces the one before it.  After a report has been
    written, a second call always succeeds, and the files are then as if
    the second report alone had been written: nothing of the first is
    left. *)
Theorem generate_report_overwrites
    self now1 analysis1 new1 now2 analysis2 new2 w p w1 :
  generate_report self now1 analysis1 new1 w = (Ok p, w1) →
  ∃ rd, generate_report self now2 analysis2 new2 w1
        = (Ok p,
           {| files := <[p := File rd true (Text (Json.dumps 2
                                 (build_report now2 analysis2 new2)))]>
                         (files w);
              stdout := stdout w |}).
Proof.
  intros (-> & rd & ->)%generate_report_Ok.
  destruct (generate_report_writable self now2 analysis2 new2
              {| files := <[report_path self :=
                              File rd true (Text (Json.dumps 2
                                (build_report now1 analysis1 new1)))]> (files w);
                 stdout := stdout w |}) as [rd' Hsecond].
  { left. cbn [files]. rewrite lookup_insert_eq. by eexists _, _. }
  exists rd'. rewrite Hsecond. cbn [files stdout]. by rewrite insert_insert_eq.
Qed.

Lemma generate_report_overwrites_witness :
  ∃ p w1 rd,
    generate_report default_processor "2026-01-31T10:00:00" PNone ∅
      world_with_inputs = (Ok p, w1)
    ∧ generate_report default_processor "2027-12-24T18:30:00"
        (analysis_dict scenario_analysis) ∅ w1
      = (Ok p,
         {| files := <[p := File rd true (Text (Json.dumps 2
                               (build_report "2027-12-24T18:30:00"
                                  (analysis_dict scenario_analysis) ∅)))]>
                       (files world_with_inputs);
            stdout := stdout world_with_inputs |}).
Proof.
  destruct (generate_report_writable default_processor "2026-01-31T10:00:00"
              PNone ∅ world_with_inputs report_writable_with_inputs)
    as [rd0 Hfirst].
  destruct (generate_report_overwrites default_processor
              "2026-01-31T10:00:00" PNone ∅
              "2027-12-24T18:30:00" (analysis_dict scenario_analysis) ∅
              world_with_inputs _ _ Hfirst) as [rd Hsecond].
  by eexists _, _, rd.
Defined.

Lemma write_file_writable p c fs :
  writable p fs → ∃ rd, write_file p c fs = (Ok (), <[p := File rd true c]> fs).
Proof. unfold writable, write_file. intros [(rd & c' & ->)|[-> ->]]; by eexists. Qed.

(** Writing another file leaves a destination writable. *)
Lemma writable_insert_file p q rd c fs :
  q ≠ p → q ≠ parent p → writable p fs → writable p (<[q := File rd true c]> fs).
Proof.
  intros Hp Hparent. unfold writable.
  rewrite !lookup_insert_ne by done. done.
Qed.

Section MainMore.
Variable to_datetime : Series → scalar → option Timestamp.
Variable strftime_ymd : Timestamp → string.

Abbreviation run := (run_script to_datetime strftime_ymd).

(** [main] from the moment the data is loaded. *)
Lemma main_loaded now w fs1 wr table wr' refs :
  mkdir_parents [".."; "data"; "processed"] (files w) = (Ok (), fs1) →
  files w !! main_unified_data = Some (File true wr (Csv table)) →
  files w !! main_reference_codes = Some (File true wr' (Csv refs)) →
  main to_datetime strftime_ymd now w
  = match analyze_dataset to_datetime strftime_ymd table with
    | Raise e =>
        (Raise e,
         {| files := fs1;
            stdout := stdout w ++ header ++ loaded_lines table refs
                      ++ [Line (nl +:+ "Analyzing dataset...")] |})
    | Ok a =>
        match obs_date_range a with
        | None =>
            (Raise (KeyError "obs_date_range"),
             {| files := fs1;
                stdout := stdout w ++ header ++ loaded_lines table refs
                          ++ summary_lines table a |})
        | Some range =>
            (_ ← print (LineRange "- Observation date range: " range);
             _ ← print (Line (nl +:+ "Enrichment template created."));
             _ ← save_enriched_data (set_ref_codes refs (set_df table default_processor))
                   table "ethiopia_fi_enriched.csv";
             report_path ← generate_report
                             (set_ref_codes refs (set_df table default_processor))
                             now (analysis_dict a) ∅;
             _ ← print (LinePath (nl +:+ "Report generated: ") report_path);
             print (Line (nl +:+ "âœ… Task 1 processing completed!")))
              {| files := fs1;
                 stdout := stdout w ++ header ++ loaded_lines table refs
                           ++ summary_lines table a |}
        end
    end.
Proof.
  intros Hmk Hu Hr.
  destruct (mkdir_parents_spec _ _ _ _ Hmk) as [Hadd _].
  assert (Hu1 : fs1 !! main_unified_data = Some (File true wr (Csv table))).
  { rewrite <- Hu. apply (dirs_added_longer _ _ _ _ Hadd). simpl. lia. }
  assert (Hr1 : fs1 !! main_reference_codes = Some (File true wr' (Csv refs))).
  { rewrite <- Hr. apply (dirs_added_longer _ _ _ _ Hadd). simpl. lia. }
  unfold main. rewrite !bind_print. cbv beta.
  rewrite bind_IO. unfold init. rewrite bind_IO. unfold fs_io.
  cbn [files stdout app processed_dir]. rewrite Hmk.
  rewrite <- !(assoc_L (++)). cbn [app]. fold header.
  unfold mret at 1, IO_ret. rewrite bind_IO.
  change (mkDataProcessor _ _ _ _ _) with default_processor.
  rewrite (load_data_both default_processor
             {| files := fs1; stdout := stdout w ++ header |}
             wr table wr' refs Hu1 Hr1).
  cbn [negb files stdout]. rewrite bind_print, bind_IO.
  unfold self_df at 1. cbn [df set_ref_codes set_df].
  unfold mret at 1, IO_ret. rewrite bind_IO. unfold lift at 1.
  destruct (analyze_dataset to_datetime strftime_ymd table) as [a|e].
  - rewrite !bind_print. cbv beta. cbn [files stdout]. rewrite bind_IO.
    rewrite <- !(assoc_L (++)).
    destruct (obs_date_range a) as [range|]; unfold mret, IO_ret, raise;
      reflexivity.
  - cbn [files stdout]. by rewrite <- !(assoc_L (++)).
Qed.


End MainMore.



(** ** Growth metrics, further *)

Module GrowthMore.
Import Growth.

Lemma float_div_Raise x y e : float_div x y = Raise e → e = ZeroDivisionError.
Proof. unfold float_div. by destruct (PrimFloat.eqb y 0%float); intros [= <-]. Qed.

Lemma float_div_zero x y :
  PrimFloat.eqb y 0%float = true → float_div x y = Raise ZeroDivisionError.
Proof. unfold float_div. by intros ->. Qed.

Section MetricsMore.
Variable float_pow : float → float → power.

(** X10: on built-in floats, with two forecast values or more, the call
    raises [ZeroDivisionError] when [years] is empty, and also when
    [current_value] is zero, of either sign. *)
Theorem growth_zero_division {A} current_value forecast_values (years : list A) :
  (2 ≤ length forecast_values)%nat →
  years = [] ∨ PrimFloat.eqb current_value 0%float = true →
  calculate_growth_metrics float_pow current_value forecast_values years
  = Raise ZeroDivisionError.
Proof.
  intros Hlen Hzero. unfold calculate_growth_metrics.
  rewrite decide_False by lia.
  destruct (last forecast_values) as [final|] eqn:Hlast.
  2:{ apply last_None in Hlast. subst. simpl in Hlen. lia. }
  destruct Hzero as [->|Hzero]; [done|].
  destruct (float_div (PrimFloat.sub final current_value) _) as [annual|e] eqn:Hdiv.
  - cbn -[doubling_time_of]. unfold cagr_of.
    by rewrite (float_div_zero final current_value Hzero).
  - apply float_div_Raise in Hdiv as ->. done.
Qed.

(** X11: of the forecast values only the last one counts, and of the
    years only their number: two calls with the same current value, the
    same last forecast value and as many years give the same result. *)
Theorem growth_last_value_only {A B} current_value
    forecast_values forecast_values' (years : list A) (years' : list B) :
  (2 ≤ length forecast_values)%nat → (2 ≤ length forecast_values')%nat →
  last forecast_values = last forecast_values' →
  length years = length years' →
  calculate_growth_metrics float_pow current_value forecast_values years
  = calculate_growth_metrics float_pow current_value forecast_values' years'.
Proof.
  intros Hlen Hlen' Hlast Hyears. unfold calculate_growth_metrics.
  rewrite !decide_False by lia. by rewrite Hlast, Hyears.
Qed.

(** X12: on built-in floats, whose [**] raises nothing but an
    [OverflowError] or a [ZeroDivisionError], the call raises nothing but a
    [ZeroDivisionError], the [OverflowError] of the power of the ratio of
    the last forecast value to the current value, or the [TypeError] of
    comparing the CAGR with [0] when that power is a complex number; in
    particular it raises no [IndexError], whatever the length of the
    forecast values. *)
Theorem growth_exceptions {A} current_value forecast_values (years : list A) e :
  (∀ x y e', float_pow x y = PowRaise e' →
             e' = OverflowError ∨ e' = ZeroDivisionError) →
  calculate_growth_metrics float_pow current_value forecast_values years
  = Raise e →
  e ≠ IndexError
  ∧ ∃ final,
      last forecast_values = Some final
      ∧ let ratio := PrimFloat.div final current_value in
        let exponent := PrimFloat.div 1%float (float_of_len (length years)) in
        e = ZeroDivisionError
        ∨ (e = OverflowError ∧ float_pow ratio exponent = PowRaise OverflowError)
        ∨ ((∃ msg, e = TypeError msg) ∧ float_pow ratio exponent = PowComplex).
Proof.
  intros Hpow Hcall.
  enough (Hcases : ∃ final,
      last forecast_values = Some final
      ∧ (e = ZeroDivisionError
         ∨ (e = OverflowError
            ∧ float_pow (PrimFloat.div final current_value)
                (PrimFloat.div 1%float (float_of_len (length years)))
              = PowRaise OverflowError)
         ∨ ((∃ msg, e = TypeError msg)
            ∧ float_pow (PrimFloat.div final current_value)
                (PrimFloat.div 1%float (float_of_len (length years)))
              = PowComplex))).
  { split; [|exact Hcases].
    destruct Hcases as (_ & _ & [->|[[-> _]|[[msg ->] _]]]); done. }
  revert Hcall. unfold calculate_growth_metrics. case_decide as Hlen; [done|].
  destruct (last forecast_values) as [final|] eqn:Hlast.
  2:{ apply last_None in Hlast. subst. simpl in Hlen. lia. }
  intros Hcall. exists final. split; [done|]. revert Hcall.
  destruct (float_div (PrimFloat.sub final current_value) _) as [annual|e0] eqn:Hdiv.
  2:{ apply float_div_Raise in Hdiv as ->. intros [= <-]. by left. }
  cbn -[doubling_time_of float_of_len]. unfold cagr_of, float_div at 1 2.
  destruct (PrimFloat.eqb current_value 0%float);
    [intros [= <-]; by left|].
  cbn -[doubling_time_of float_of_len].
  destruct (PrimFloat.eqb (float_of_len (length years)) 0%float);
    [intros [= <-]; by left|].
  cbn -[doubling_time_of float_of_len].
  destruct (float_pow _ _) as [p| |e3] eqn:Hp; cbn -[doubling_time_of float_of_len].
  - by rewrite GrowthFacts.doubling_time_of_float.
  - intros [= <-]. right. right. split; [by eexists|done].
  - intros [= <-]. destruct (Hpow _ _ _ Hp) as [->| ->]; [|by left].
    right. left. by split.
Qed.
End MetricsMore.

Lemma growth_zero_division_witness :
  (2 ≤ length [52.5%float; 55%float])%nat
  ∧ calculate_growth_metrics pow_one_year 0%float [52.5%float; 55%float] [2025%Z]
    = Raise ZeroDivisionError.
Proof.
  assert (Hlen : (2 ≤ length [52.5%float; 55%float])%nat) by (simpl; lia).
  split; [exact Hlen|].
  apply (growth_zero_division pow_one_year 0%float [52.5%float; 55%float]
           [2025%Z] Hlen).
  right. reflexivity.
Defined.

Lemma growth_last_value_only_witness :
  calculate_growth_metrics pow_one_year 50%float [52.5%float; 55%float] [2025%Z]
  = calculate_growth_metrics pow_one_year 50%float
      [51%float; 60%float; 55%float] ["any year"].
Proof.
  apply (growth_last_value_only pow_one_year); [simpl; lia|simpl; lia|done|done].
Defined.

Lemma growth_exceptions_witness :
  calculate_growth_metrics pow_one_year 50%float [52.5%float; 55%float]
    [2025%Z; 2026%Z]
  = Raise OverflowError
  ∧ OverflowError ≠ IndexError.
Proof.
  assert (Hcall :
    calculate_growth_metrics pow_one_year 50%float [52.5%float; 55%float]
      [2025%Z; 2026%Z]
    = Raise OverflowError) by (vm_compute; reflexivity).
  split; [exact Hcall|].
  refine (proj1 (growth_exceptions pow_one_year 50%float
                   [52.5%float; 55%float] [2025%Z; 2026%Z] OverflowError
                   _ Hcall)).
  intros x y e'. unfold pow_one_year.
  destruct (PrimFloat.eqb y 1%float); intros [= <-]. by left.
Defined.
End GrowthMore.

(** ** The text of the report *)

Lemma string_forall_app f s1 s2 :
  string_forall f (s1 +:+ s2) = string_forall f s1 && string_forall f s2.
Proof.
  induction s1 as [|c s1 IH]; simpl; [done|]. by rewrite IH, andb_assoc.
Qed.

Lemma string_forall_impl (f g : ascii → bool) s :
  (∀ c, f c = true → g c = true) →
  string_forall f s = true → string_forall g s = true.
Proof.
  intros Hfg. induction s as [|c s IH]; simpl; [done|].
  intros [Hc Hs]%andb_true_iff. by rewrite (Hfg c Hc), IH.
Qed.

Lemma printable_plain c : printable c = true → plain c = true.
Proof. unfold plain. by intros ->. Qed.

Lemma escape_char_printable c : string_forall printable (Json.escape_char c) = true.
Proof. by destruct c as [[] [] [] [] [] [] [] []]. Qed.

Lemma escape_printable s : string_forall printable (Json.escape s) = true.
Proof.
  induction s as [|c s IH]; simpl; [done|].
  by rewrite string_forall_app, escape_char_printable, IH.
Qed.

Lemma encode_basestring_ascii_printable s :
  string_forall printable (Json.encode_basestring_ascii s) = true.
Proof.
  unfold Json.encode_basestring_ascii.
  by rewrite !string_forall_app, escape_printable.
Qed.

Lemma pretty_N_go_printable (x : N) s :
  string_forall printable s = true →
  string_forall printable (pretty_N_go x s) = true.
Proof.
  revert s. induction (N.lt_wf_0 x) as [x _ IH]; intros s Hs.
  assert (x = 0 ∨ 0 < x)%N as [->|?] by lia.
  - by rewrite pretty_N_go_0.
  - rewrite pretty_N_go_step by done. apply IH; [by apply N.div_lt|].
    simpl. rewrite Hs, andb_true_r.
    unfold pretty_N_char. by repeat case_match.
Qed.

Lemma pretty_N_printable (x : N) : string_forall printable (pretty x) = true.
Proof.
  unfold pretty, pretty_N. case_decide; [done|]. by apply pretty_N_go_printable.
Qed.

Lemma pretty_Z_printable (x : Z) : string_forall printable (pretty x) = true.
Proof.
  destruct x as [|x|x]; [done|..].
  - apply (pretty_N_printable (Npos x)).
  - change (pretty (Zneg x)) with ("-" +:+ pretty (Npos x)).
    rewrite string_forall_app. by rewrite (pretty_N_printable (Npos x)).
Qed.

Lemma spaces_printable n : string_forall printable (Json.spaces n) = true.
Proof. induction n as [|n IH]; simpl; [done|]. by rewrite IH. Qed.

Lemma newline_indent_plain indent level :
  string_forall plain (Json.newline_indent indent level) = true.
Proof.
  unfold Json.newline_indent. rewrite string_forall_app. simpl.
  apply (string_forall_impl _ _ _ printable_plain), spaces_printable.
Qed.

Lemma join_forall f sep l :
  string_forall f sep = true → Forall (λ s, string_forall f s = true) l →
  string_forall f (Json.join sep l) = true.
Proof.
  intros Hsep. induction 1 as [|s l Hs Hl IH]; [done|].
  destruct l as [|s' l]; [done|].
  change (Json.join sep (s :: s' :: l))
    with (s +:+ sep +:+ Json.join sep (s' :: l)).
  by rewrite !string_forall_app, Hs, Hsep, IH.
Qed.

Lemma key_str_escaped_printable k :
  string_forall printable (Json.encode_basestring_ascii (Json.key_str k)) = true.
Proof. apply encode_basestring_ascii_printable. Qed.

Lemma encode_plain indent :
  ∀ v level, string_forall plain (Json.encode indent level v) = true.
Proof.
  fix IH 1. intros [| [] |n|s|l|d] level.
  - reflexivity.
  - reflexivity.
  - reflexivity.
  - apply (string_forall_impl _ _ _ printable_plain), pretty_Z_printable.
  - apply (string_forall_impl _ _ _ printable_plain),
      encode_basestring_ascii_printable.
  - destruct l as [|v l]; [reflexivity|].
    change (Json.encode indent level (PList (v :: l)))
      with ("[" +:+ Json.newline_indent indent (S level)
            +:+ Json.join ("," +:+ Json.newline_indent indent (S level))
                  (map (Json.encode indent (S level)) (v :: l))
            +:+ Json.newline_indent indent level +:+ "]").
    rewrite !string_forall_app, !newline_indent_plain.
    rewrite join_forall; [reflexivity| |].
    + rewrite string_forall_app, newline_indent_plain. reflexivity.
    + generalize (v :: l). intros vs. induction vs as [|v' vs IHvs];
        constructor; [apply IH|apply IHvs].
  - destruct d as [|kv d]; [reflexivity|].
    change (Json.encode indent level (PDict (kv :: d)))
      with ("{" +:+ Json.newline_indent indent (S level)
            +:+ Json.join ("," +:+ Json.newline_indent indent (S level))
                  (map (λ kv, Json.encode_basestring_ascii (Json.key_str (fst kv))
                              +:+ ": " +:+ Json.encode indent (S level) (snd kv))
                       (kv :: d))
            +:+ Json.newline_indent indent level +:+ "}").
    rewrite !string_forall_app, !newline_indent_plain.
    rewrite join_forall; [reflexivity| |].
    + rewrite string_forall_app, newline_indent_plain. reflexivity.
    + generalize (kv :: d). intros kvs. induction kvs as [|[k v'] kvs IHkvs];
        constructor; [|apply IHkvs].
      cbn [fst snd]. rewrite !string_forall_app.
      rewrite (string_forall_impl _ _ _ printable_plain
                 (key_str_escaped_printable k)).
      cbn [string_forall andb]. change (plain ":") with true.
      change (plain " ") with true. cbn [andb]. apply IH.
Qed.

(** X13: the text of a report is plain ASCII, whatever the strings of the
    analysis: [json.dump] escapes every character outside the printable
    ASCII range, so that the text is made of printable ASCII characters and
    of the line feeds of the indentation. *)
Theorem report_text_plain now analysis new_records :
  string_forall plain (Json.dumps 2 (build_report now analysis new_records))
  = true.
Proof. apply encode_plain. Qed.

(** ** The dashboard utilities *)

Module DashboardFacts.
Import Dashboard.

Section LoadingFacts.
Variable read_csv : path → result frame.

(** X14: [load_forecast_data] returns the two tables when both are read.
    As soon as one of the two files is not found it returns the two sample
    tables, also when the account table had been read; it never raises
    [FileNotFoundError], and what it raises was raised by a read. *)
Theorem load_forecast_data_fallback data_dir :
  let account := data_dir ++ [account_forecast_file] in
  let payment := data_dir ++ [payment_forecast_file] in
  let samples := (sample_account_forecast, sample_payment_forecast) in
  (∀ a p, read_csv account = Ok a → read_csv payment = Ok p →
          load_forecast_data read_csv data_dir = Ok (a, p))
  ∧ (∀ q, read_csv account = Raise (FileNotFoundError q) →
          load_forecast_data read_csv data_dir = Ok samples)
  ∧ (∀ a q, read_csv account = Ok a →
            read_csv payment = Raise (FileNotFoundError q) →
            load_forecast_data read_csv data_dir = Ok samples)
  ∧ (∀ e, load_forecast_data read_csv data_dir = Raise e →
          (∀ q, e ≠ FileNotFoundError q)
          ∧ (read_csv account = Raise e ∨ read_csv payment = Raise e)).
Proof.
  intros account payment samples.
  unfold load_forecast_data, read_forecasts. fold account payment.
  split; [|split; [|split]].
  - intros a p -> ->. done.
  - intros q ->. done.
  - intros a q -> ->. done.
  - intros e He.
    destruct (read_csv account) as [a|e0]; simpl in He.
    + destruct (read_csv payment) as [p|e1]; simpl in He; [done|].
      destruct e1; try done; injection He as <-; (split; [done|by right]).
    + destruct e0; try done; injection He as <-; (split; [done|by left]).
Qed.
End LoadingFacts.

Lemma load_forecast_data_fallback_witness :
  account_file_only [".."; "data"; "processed"; account_forecast_file]
  = Ok stored_account_forecast
  ∧ account_file_only [".."; "data"; "processed"; payment_forecast_file]
    = Raise (FileNotFoundError
               [".."; "data"; "processed"; payment_forecast_file])
  ∧ load_forecast_data account_file_only [".."; "data"; "processed"]
    = Ok (sample_account_forecast, sample_payment_forecast).
Proof.
  split; [reflexivity|]. split; [reflexivity|].
  destruct (load_forecast_data_fallback account_file_only
              [".."; "data"; "processed"]) as (_ & _ & Hsecond & _).
  by apply (Hsecond stored_account_forecast
              [".."; "data"; "processed"; payment_forecast_file]).
Defined.

Lemma dict_set_keys {V} (k : string) (v : V) (d : dict string V) :
  k ∈ d.*1 → (dict_set k v d).*1 = d.*1.
Proof.
  induction d as [|[k' v'] d IH]; [by intros ?%elem_of_nil|].
  cbn [dict_set]. rewrite fmap_cons. cbn [fst].
  case_decide as Hk; [by subst|].
  intros [?|Hin]%elem_of_cons; [congruence|].
  rewrite fmap_cons. cbn [fst]. by rewrite IH.
Qed.

Lemma dict_get_set_eq {V} (k : string) (v : V) (d : dict string V) :
  dict_get k (dict_set k v d) = Some v.
Proof.
  induction d as [|[k' v'] d IH]; simpl; [by rewrite decide_True|].
  case_decide as Hk; simpl; [by rewrite decide_True|]. by rewrite decide_False.
Qed.

Lemma dict_get_set_ne {V} (k k0 : string) (v : V) (d : dict string V) :
  k0 ≠ k → dict_get k0 (dict_set k v d) = dict_get k0 d.
Proof.
  intros Hne. induction d as [|[k' v'] d IH]; simpl; [by rewrite decide_False|].
  case_decide as Hk; simpl.
  - subst k'. by rewrite !decide_False.
  - case_decide; [done|apply IH].
Qed.

Lemma dict_get_elem_of {V} (k : string) (d : dict string V) :
  k ∈ d.*1 → ∃ v, dict_get k d = Some v.
Proof.
  induction d as [|[k' v'] d IH]; simpl; [by intros ?%elem_of_nil|].
  case_decide; [by eexists|]. intros [?|Hin]%elem_of_cons; [congruence|auto].
Qed.

Lemma series_mul_length c m c' :
  series_mul c m = Ok c' → column_length c' = column_length c.
Proof.
  destruct c as [l|l|[|s l]]; simpl; [| | |done]; intros [= <-]; simpl;
    by rewrite ?length_fmap.
Qed.

Lemma series_mul_Raise c m e :
  series_mul c m = Raise e →
  ∃ msg s l, e = TypeError msg ∧ c = ObjectColumn (s :: l).
Proof.
  destruct c as [l|l|[|s l]]; simpl; try done. intros [= <-].
  by exists "can't multiply sequence by non-int of type 'float'", s, l.
Qed.

(** X15: [generate_scenario_data] scales the base forecast column and
    nothing else.  Without that column the two scenarios are the base
    table itself.  With it, the two scenarios have the columns of the base
    table, in the same order; every other column, the scenario and
    interval columns among them, is as in the base table; the base column
    is the base one multiplied by the multiplier of the scenario, with as
    many cells; and the only exception is the [TypeError] of a base column
    of strings. *)
Theorem scenario_data_columns base m_up m_down :
  (base_forecast_column ∉ base.*1 →
   generate_scenario_data base m_up m_down = Ok (base, base))
  ∧ (∀ optimistic pessimistic,
       generate_scenario_data base m_up m_down = Ok (optimistic, pessimistic) →
       optimistic.*1 = base.*1 ∧ pessimistic.*1 = base.*1
       ∧ (∀ k, k ≠ base_forecast_column →
            dict_get k optimistic = dict_get k base
            ∧ dict_get k pessimistic = dict_get k base)
       ∧ (∀ c, dict_get base_forecast_column base = Some c →
            ∃ up down,
              series_mul c m_up = Ok up ∧ series_mul c m_down = Ok down
              ∧ dict_get base_forecast_column optimistic = Some up
              ∧ dict_get base_forecast_column pessimistic = Some down
              ∧ column_length up = column_length c
              ∧ column_length down = column_length c))
  ∧ (∀ e, generate_scenario_data base m_up m_down = Raise e →
       ∃ msg s l, e = TypeError msg
                  ∧ dict_get base_forecast_column base
                    = Some (ObjectColumn (s :: l))).
Proof.
  unfold generate_scenario_data. split; [|split].
  - intros Hin. by rewrite bool_decide_eq_false_2.
  - intros optimistic pessimistic.
    destruct (decide (base_forecast_column ∈ base.*1)) as [Hin|Hin].
    2:{ rewrite bool_decide_eq_false_2 by done. intros [= <- <-].
        split; [done|]. split; [done|]. split; [done|].
        intros c Hc%dict_get_Some. destruct Hin.
        apply list_elem_of_fmap. by exists (base_forecast_column, c). }
    rewrite bool_decide_eq_true_2 by done.
    destruct (dict_get_elem_of _ _ Hin) as [c Hc]. rewrite Hc. simpl.
    destruct (series_mul c m_up) as [up|e] eqn:Hup; simpl; [|done].
    destruct (series_mul c m_down) as [down|e] eqn:Hdown; simpl; [|done].
    intros [= <- <-].
    split; [by apply dict_set_keys|]. split; [by apply dict_set_keys|].
    split.
    + intros k Hk. by rewrite !dict_get_set_ne.
    + intros c' [= <-]. exists up, down. rewrite !dict_get_set_eq.
      split; [done|]. split; [done|]. split; [done|]. split; [done|].
      split; [exact (series_mul_length _ _ _ Hup)|
              exact (series_mul_length _ _ _ Hdown)].
  - intros e. case_bool_decide as Hin; [|done].
    destruct (dict_get_elem_of _ _ Hin) as [c Hc]. rewrite Hc. simpl.
    destruct (series_mul c m_up) as [up|e0] eqn:Hup; simpl.
    + destruct (series_mul c m_down) as [down|e1] eqn:Hdown; simpl; [done|].
      intros [= <-]. apply series_mul_Raise in Hdown as (msg & s & l & -> & ->).
      by exists msg, s, l.
    + intros [= <-]. apply series_mul_Raise in Hup as (msg & s & l & -> & ->).
      by exists msg, s, l.
Qed.

Lemma scenario_data_columns_witness :
  ∃ optimistic pessimistic,
    generate_scenario_data sample_account_forecast
      default_optimistic_multiplier default_pessimistic_multiplier
    = Ok (optimistic, pessimistic)
    ∧ dict_get "Optimistic Scenario (%)" optimistic
      = dict_get "Optimistic Scenario (%)" sample_account_forecast
    ∧ optimistic.*1 = sample_account_forecast.*1.
Proof.
  destruct (generate_scenario_data sample_account_forecast
              default_optimistic_multiplier default_pessimistic_multiplier)
    as [[optimistic pessimistic]|e] eqn:Hgen; [|by vm_compute in Hgen].
  exists optimistic, pessimistic. split; [done|].
  destruct (proj1 (proj2 (scenario_data_columns sample_account_forecast
                            default_optimistic_multiplier
                            default_pessimistic_multiplier)) _ _ Hgen)
    as (Hkeys & _ & Hother & _).
  split; [|done]. by apply Hother.
Defined.

Section CardFacts.
Variable float_str : float → string.

(** X16: a metric card shows no delta when the delta is [None], and no
    delta either when it is the integer zero, a float zero of either sign or
    the empty string; a string that is not empty makes the call raise a
    [TypeError]; and an integer that is not zero is shown with a plus sign
    when it is positive, under a class that depends on [delta_color] alone:
    a negative delta is styled [delta-positive] under the default colour. *)
Theorem metric_card_delta title value delta_color :
  (∀ delta, truth delta = false →
     create_metric_card float_str title value delta delta_color
     = Ok (card title value EmptyString))
  ∧ truth (Some (DeltaInt 0)) = false
  ∧ (∀ x, PrimFloat.eqb x 0%float = true → truth (Some (DeltaFloat x)) = false)
  ∧ (∀ s, s ≠ EmptyString →
       ∃ msg, create_metric_card float_str title value (Some (DeltaStr s))
                delta_color = Raise (TypeError msg))
  ∧ (∀ n, n ≠ 0%Z →
       create_metric_card float_str title value (Some (DeltaInt n)) delta_color
       = Ok (card title value
               (div_open (if bool_decide (delta_color = "normal")
                          then "delta-positive" else "delta-negative")
                +:+ (if bool_decide (0 < n)%Z then "+" else EmptyString)
                +:+ pretty n +:+ "</div>"))).
Proof.
  unfold create_metric_card. split; [|split; [|split; [|split]]].
  - by intros delta ->.
  - done.
  - intros x Hx. simpl. by rewrite Hx.
  - intros s Hs. simpl. rewrite bool_decide_eq_false_2 by done. simpl.
    by eexists.
  - intros n Hn. simpl. rewrite bool_decide_eq_false_2 by done. done.
Qed.
End CardFacts.

Lemma metric_card_delta_witness :
  create_metric_card (λ _, "0.0") "Account Ownership" "49.0%"
    (Some (DeltaInt (-3))) "normal"
  = Ok (card "Account Ownership" "49.0%"
          (div_open "delta-positive" +:+ "-3" +:+ "</div>")).
Proof.
  assert (Hn : (-3)%Z ≠ 0%Z) by done.
  destruct (metric_card_delta (λ _, "0.0") "Account Ownership" "49.0%" "normal")
    as (_ & _ & _ & _ & Hint).
  by rewrite (Hint (-3)%Z Hn).
Defined.
End DashboardFacts.

(** ** The analysis and the order of the rows *)

Lemma omap_elem_of_ext {A B} (f g : A → option B) (l : list A) :
  (∀ x, x ∈ l → f x = g x) → omap f l = omap g l.
Proof.
  induction l as [|x l IH]; intros Hfg; csimpl; [done|].
  rewrite (Hfg x) by left. rewrite IH; [done|].
  intros y Hy. apply Hfg. by right.
Qed.

Lemma series_min_Permutation s s' :
  omap id s ≡ₚ omap id s' → series_min s = series_min s'.
Proof.
  intros Hperm. unfold series_min.
  destruct (omap id s) as [|t ts] eqn:Hs; destruct (omap id s') as [|t' ts'] eqn:Hs'.
  - done.
  - by apply Permutation_nil_l in Hperm.
  - by apply Permutation_nil_r in Hperm.
  - destruct (foldl_min_spec t ts) as [Hin Hle].
    destruct (foldl_min_spec t' ts') as [Hin' Hle'].
    f_equal. apply Z.le_antisymm.
    + apply Hle. by rewrite Hperm.
    + apply Hle'. by rewrite <- Hperm.
Qed.

Lemma series_max_Permutation s s' :
  omap id s ≡ₚ omap id s' → series_max s = series_max s'.
Proof.
  intros Hperm. unfold series_max.
  destruct (omap id s) as [|t ts] eqn:Hs; destruct (omap id s') as [|t' ts'] eqn:Hs'.
  - done.
  - by apply Permutation_nil_l in Hperm.
  - by apply Permutation_nil_r in Hperm.
  - destruct (foldl_max_spec t ts) as [Hin Hle].
    destruct (foldl_max_spec t' ts') as [Hin' Hle'].
    f_equal. apply Z.le_antisymm.
    + apply Hle'. by rewrite <- Hperm.
    + apply Hle. by rewrite Hperm.
Qed.

Lemma observations_Permutation df df' :
  columns df = columns df' → rows df ≡ₚ rows df' →
  observations df ≡ₚ observations df'.
Proof.
  intros Hcols Hrows. unfold observations. rewrite Hrows.
  rewrite (list_filter_iff (is_observation df) (is_observation df')); [done|].
  intros r. unfold is_observation, cell_of. by rewrite Hcols.
Qed.

Lemma df_isnull_sum_Permutation df df' :
  columns df = columns df' → rows df ≡ₚ rows df' →
  df_isnull_sum df = df_isnull_sum df'.
Proof.
  intros Hcols Hrows. unfold df_isnull_sum. rewrite <- Hcols.
  apply imap_ext. intros i name _. simpl. f_equal.
  unfold isnull_sum, column_at. rewrite !filter_fmap_length. by rewrite Hrows.
Qed.

Section RowOrder.
Variable to_datetime : Series → scalar → option Timestamp.
Variable strftime_ymd : Timestamp → string.

Abbreviation analyse := (analyze_dataset to_datetime strftime_ymd).

Lemma record_counts_lookup df a v :
  analyse df = Ok a →
  dict_get v (record_counts a)
  = if decide (v ∈ record_types df)
    then Some (occurrences v (record_types df)) else None.
Proof.
  intros (i & j & obs & Hi & _ & _ & _ & Hc & _)%analyze_dataset_Ok.
  destruct (record_type_column_spec df i Hi) as [Hvals _].
  rewrite Hc. case_decide as Hv.
  - apply dict_get_NoDup; [apply NoDup_value_counts|].
    apply elem_of_value_counts. by rewrite Hvals.
  - apply dict_get_None. rewrite value_counts_keys, elem_of_unique.
    by rewrite Hvals.
Qed.

(** X17: the order of the rows matters little.  Two tables with the same
    columns and the same rows in another order have the same count under
    every record type, the same number of indicators and the same missing
    values.  They have the same date range too when the dates of the
    observation rows are read alike in both tables; they may not be, as
    pandas may hold a column to the format of its first dates.  The order
    of the keys of [record_counts] and the sample of indicators may differ
    as well. *)
Theorem analysis_row_order df df' a a' :
  columns df = columns df' → rows df ≡ₚ rows df' →
  analyse df = Ok a → analyse df' = Ok a' →
  (∀ v, dict_get v (record_counts a) = dict_get v (record_counts a'))
  ∧ unique_indicators_count a = unique_indicators_count a'
  ∧ missing_values a = missing_values a'
  ∧ ((∀ v, Some v ∈ observation_dates df →
           to_datetime (observation_dates df) v
           = to_datetime (observation_dates df') v) →
     obs_date_range a = obs_date_range a').
Proof.
  intros Hcols Hrows Ha Ha'.
  assert (Hobs : observations df ≡ₚ observations df')
    by by apply observations_Permutation.
  enough ((∀ v, dict_get v (record_counts a) = dict_get v (record_counts a'))
          ∧ ((∀ v, Some v ∈ observation_dates df →
                   to_datetime (observation_dates df) v
                   = to_datetime (observation_dates df') v) →
             obs_date_range a = obs_date_range a')
          ∧ unique_indicators_count a = unique_indicators_count a'
          ∧ missing_values a = missing_values a') by tauto.
  split; [|split; [|split]].
  - intros v. rewrite (record_counts_lookup df a v Ha).
    rewrite (record_counts_lookup df' a' v Ha').
    assert (Htypes : record_types df ≡ₚ record_types df').
    { unfold record_types.
      rewrite (omap_pointwise (cell_of df "record_type")
                 (cell_of df' "record_type"))
        by (intros r; unfold cell_of; by rewrite Hcols).
      by rewrite Hrows. }
    unfold occurrences.
    destruct (decide (v ∈ record_types df)) as [Hv|Hv];
      rewrite Htypes in Hv.
    + rewrite decide_True by done. by rewrite Htypes.
    + by rewrite decide_False.
  - intros Halike.
    apply analyze_dataset_Ok in Ha
      as (i & j & obs & _ & _ & Hc & Hr & _ & Hd & _).
    apply analyze_dataset_Ok in Ha'
      as (i' & j' & obs' & _ & _ & Hc' & Hr' & _ & Hd' & _).
    rewrite date_range_Ok in Hd, Hd'. injection Hd as <-. injection Hd' as <-.
    rewrite Hc, Hc', <- Hcols.
    destruct (column_index "observation_date" (columns df)) as [k|] eqn:Hk;
      [|done].
    assert (Hdates : observation_dates df ≡ₚ observation_dates df').
    { unfold observation_dates. rewrite Hobs. apply Permutation_refl'.
      apply list_fmap_ext. intros _ r _. unfold cell_of. by rewrite Hcols. }
    assert (Hvalid :
      omap id (to_datetime_coerce to_datetime (column_at k obs))
      ≡ₚ omap id (to_datetime_coerce to_datetime (column_at k obs'))).
    { rewrite (valid_dates_spec to_datetime df obs k Hc Hr) by congruence.
      rewrite (valid_dates_spec to_datetime df' obs' k Hc' Hr') by congruence.
      unfold valid_observation_dates.
      set (reader := to_datetime (observation_dates df)) in *.
      set (reader' := to_datetime (observation_dates df')) in *.
      rewrite <- Hdates. apply Permutation_refl', omap_elem_of_ext.
      intros [v|] Hv; [|done]. simpl. by apply Halike. }
    simpl. by rewrite (series_min_Permutation _ _ Hvalid),
      (series_max_Permutation _ _ Hvalid).
  - apply analyze_dataset_Ok in Ha as (_ & _ & _ & _ & _ & _ & _ & _ & _ & Hn & _).
    apply analyze_dataset_Ok in Ha' as (_ & _ & _ & _ & _ & _ & _ & _ & _ & Hn' & _).
    rewrite Hn, Hn', !length_unique. f_equal. apply set_eq. intros v.
    rewrite !elem_of_list_to_set. unfold observation_indicator_codes.
    rewrite Hobs.
    by rewrite (omap_pointwise (cell_of df "indicator_code")
                  (cell_of df' "indicator_code"))
      by (intros r; unfold cell_of; by rewrite Hcols).
  - apply analyze_dataset_Ok in Ha
      as (_ & _ & _ & _ & _ & _ & _ & _ & _ & _ & _ & Hm).
    apply analyze_dataset_Ok in Ha'
      as (_ & _ & _ & _ & _ & _ & _ & _ & _ & _ & _ & Hm').
    by rewrite Hm, Hm', (df_isnull_sum_Permutation df df').
Qed.
End RowOrder.

Lemma analysis_row_order_witness :
  columns scenario_table = columns reversed_scenario_table
  ∧ rows scenario_table ≡ₚ rows reversed_scenario_table
  ∧ ∃ a', Sample.analyze_dataset reversed_scenario_table = Ok a'
          ∧ unique_indicators_count scenario_analysis
            = unique_indicators_count a'
          ∧ missing_values scenario_analysis = missing_values a'
          ∧ obs_date_range scenario_analysis = obs_date_range a'.
Proof.
  assert (Hrows : rows scenario_table ≡ₚ rows reversed_scenario_table)
    by (symmetry; apply reverse_Permutation).
  split; [reflexivity|]. split; [exact Hrows|].
  eexists. split; [reflexivity|].
  destruct (analysis_row_order Sample.to_datetime Sample.strftime_ymd
              scenario_table reversed_scenario_table scenario_analysis _
              eq_refl Hrows eq_refl eq_refl) as (_ & Hn & Hm & Hr).
  split; [exact Hn|]. split; [exact Hm|]. apply Hr. by intros v _.
Defined.

(** ** Strings in the report *)

Lemma unescape_escape_char c rest :
  unescape (Json.escape_char c +:+ rest) = String c (unescape rest).
Proof. by destruct c as [[] [] [] [] [] [] [] []]. Qed.

Lemma append_assoc_L (s1 s2 s3 : string) :
  (s1 +:+ s2) +:+ s3 = s1 +:+ (s2 +:+ s3).
Proof.
  induction s1 as [|c s1 IH]; [done|].
  change (String c ((s1 +:+ s2) +:+ s3) = String c (s1 +:+ s2 +:+ s3)).
  by rewrite IH.
Qed.

Lemma append_empty_r (s : string) : s +:+ EmptyString = s.
Proof.
  induction s as [|c s IH]; [done|].
  change (String c (s +:+ EmptyString) = String c s). by rewrite IH.
Qed.

Lemma unescape_escape_app s rest :
  unescape (Json.escape s +:+ rest) = s +:+ unescape rest.
Proof.
  induction s as [|c s IH]; [done|].
  change (Json.escape (String c s)) with (Json.escape_char c +:+ Json.escape s).
  rewrite append_assoc_L, unescape_escape_char.
  change (String c s +:+ unescape rest) with (String c (s +:+ unescape rest)).
  by rewrite IH.
Qed.

Lemma append_char_inj s1 s2 c :
  s1 +:+ String c EmptyString = s2 +:+ String c EmptyString → s1 = s2.
Proof.
  revert s2. induction s1 as [|c1 s1 IH]; intros [|c2 s2]; try done.
  - intros [= _ H]. by destruct s2.
  - intros [= _ H]. by destruct s1.
  - intros [= -> H]. f_equal. by apply IH.
Qed.

(** X18: the strings of a report can be read back.  Undoing the escapes of
    the body of a JSON string gives the string that was written, so that
    two strings written as the same JSON text are the same string: no
    character is lost or merged in a report. *)
Theorem json_string_read_back :
  (∀ s, unescape (Json.escape s) = s)
  ∧ ∀ s1 s2, Json.encode_basestring_ascii s1 = Json.encode_basestring_ascii s2 →
             s1 = s2.
Proof.
  assert (Hread : ∀ s, unescape (Json.escape s) = s).
  { intros s. rewrite <- (append_empty_r (Json.escape s)).
    rewrite unescape_escape_app. simpl. apply append_empty_r. }
  split; [done|]. intros s1 s2. unfold Json.encode_basestring_ascii.
  intros Heq%(inj (String.append Json.quote)).
  apply append_char_inj in Heq. by rewrite <- (Hread s1), Heq, Hread.
Qed.

Lemma json_string_read_back_witness :
  unescape (Json.escape ("tab" +:+ String "009"%char "é"))
  = "tab" +:+ String "009"%char "é".
Proof. exact (proj1 json_string_read_back _). Defined.
